(** * PsfLauncher: a shallow embedding of [src/PsfLauncher/main.cpp]

    The launcher reads one entry of the package configuration and starts,
    in this order, an optional starting PowerShell script, an optional
    monitor, the packaged application and an optional ending PowerShell
    script.  Every function of [main.cpp] that talks to Windows is embedded
    as a function from the history of calls made so far (a [Trace]) to its
    result and the extended history.  What Windows, the registry, the file
    system and the configuration answer is taken from a [Host]. *)

From Stdlib Require Import ZArith List String Ascii Bool Lia Sorted.
Import ListNotations.

Open Scope string_scope.
Open Scope Z_scope.

(** ** Machine integers and constants of [windows.h] *)

Module Win32.

Definition ERROR_SUCCESS : Z := 0.
Definition ERROR_FILE_NOT_FOUND : Z := 2.
Definition ERROR_NOT_FOUND : Z := 1168.
(** The HRESULT 0x80270254 of [winerror.h]; an [HRESULT] is a signed 32-bit
    integer, so the constant is the negative number with that bit pattern. *)
Definition E_APPLICATION_NOT_REGISTERED : Z := 0x80270254 - 2 ^ 32.
Definition WAIT_OBJECT_0 : Z := 0.
Definition INFINITE : Z := 0xFFFFFFFF.
Definition SEE_MASK_NOCLOSEPROCESS : Z := 0x40.
Definition SEE_MASK_WAITFORINPUTIDLE : Z := 0x02000000.
Definition STARTF_USESHOWWINDOW : Z := 0x1.
Definition EXTENDED_STARTUPINFO_PRESENT : Z := 0x00080000.
Definition PROCESS_CREATION_DESKTOP_APP_BREAKAWAY_DISABLE_PROCESS_TREE : Z := 0x02.
Definition PROC_THREAD_ATTRIBUTE_DESKTOP_APP_POLICY : Z := 0x00020012.

(** [static_cast<WORD>(cmdShow)] *)
Definition WORD_of_int (n : Z) : Z := n mod 2 ^ 16.
(** [(DWORD)createResult] for an [LSTATUS] *)
Definition DWORD_of_LSTATUS (n : Z) : Z := n mod 2 ^ 32.
(** A [DWORD] returned from a function whose result type is [int]: the
    signed number with the same 32 bits. *)
Definition int_of_DWORD (n : Z) : Z :=
  let m := n mod 2 ^ 32 in
  if m <? 2 ^ 31 then m else m - 2 ^ 32.

End Win32.
Export Win32.

(** ** [std::wstring] operations used by the launcher

    Wide strings are embedded as [string]; positions and counts are
    [size_t], written as [Z] with the 64-bit wrap-around spelled out. *)

Module WString.

Definition dquote : ascii := "034"%char.
Definition space : ascii := " "%char.

Definition npos : Z := 2 ^ 64 - 1.
(** [max_size()] of a [std::wstring] on a 64-bit target. *)
Definition max_size : Z := 2 ^ 63 - 1.
Definition size_t_sub (a b : Z) : Z := (a - b) mod 2 ^ 64.
Definition size (s : string) : Z := Z.of_nat (String.length s).

Fixpoint drop (n : nat) (s : string) : string :=
  match n, s with
  | O, _ => s
  | S _, EmptyString => EmptyString
  | S n', String _ s' => drop n' s'
  end.

Fixpoint find_from (ch : ascii) (s : string) (i : Z) : Z :=
  match s with
  | EmptyString => npos
  | String c s' => if Ascii.eqb c ch then i else find_from ch s' (i + 1)
  end.

(** [s.find(ch, pos)]: the first index at or after [pos] that holds [ch],
    [npos] when there is none. *)
Definition find (s : string) (ch : ascii) (pos : Z) : Z :=
  find_from ch (drop (Z.to_nat pos) s) pos.

(** [s.substr(pos, count)]: the characters of [[pos, pos + min(count, size - pos))].
    The C++ call throws [std::out_of_range] when [pos > size]; the launcher
    calls it with [pos = 0], with [pos = 1] on a string whose first
    character is a quote, and with [pos = size - n] under [n <= size]. *)
Definition substr (s : string) (pos count : Z) : string :=
  let rlen := Z.min count (size s - pos) in
  String.substring (Z.to_nat pos) (Z.to_nat rlen) s.

(** [s[i]]: for [i = size] the reference is to the terminating null. *)
Definition at_ (s : string) (i : nat) : ascii :=
  match String.get i s with
  | Some c => c
  | None => Ascii.zero
  end.

(** Modelled from the spec: [iwstring_view] is declared outside [src/];
    the spec calls the comparison a case-insensitive test.  Characters are
    compared after folding the ASCII capitals to lower case. *)
Definition fold_case (c : ascii) : ascii :=
  let n := N_of_ascii c in
  if ((65 <=? n) && (n <=? 90))%N then ascii_of_N (n + 32) else c.

Fixpoint iwstring_eqb (a b : string) : bool :=
  match a, b with
  | EmptyString, EmptyString => true
  | String x a', String y b' =>
      Ascii.eqb (fold_case x) (fold_case y) && iwstring_eqb a' b'
  | _, _ => false
  end.

End WString.
Export WString.

(** A nullable pointer to a wide string. *)
Definition LPCWSTR : Type := option string.

(** The conversion of a pointer to [bool]: true unless the pointer is null. *)
Definition bool_of_pointer (p : LPCWSTR) : bool :=
  match p with
  | Some _ => true
  | None => false
  end.

(** [json_string::wide()]: a pointer into the string's own buffer, never null. *)
Definition wide (s : string) : LPCWSTR := Some s.

(** Reading through a pointer that the launcher has already filled in
    ([launcher_main] never passes a null [dirStr]). *)
Definition deref (p : LPCWSTR) : string :=
  match p with
  | Some s => s
  | None => EmptyString
  end.

(** ** [struct ExecutionInformation] *)

Record ExecutionInformation : Type := {
  ApplicationName : LPCWSTR;
  CommandLine : string;
  CurrentDirectory : LPCWSTR
}.

(** ** [ErrorInformation] *)

(** Modelled from the spec: [ErrorInformation.h] is not under [src/].  The
    spec's LaunchOutcome is either success or an ErrorRecord with a message,
    an integer code and an optional executable tag that is attached after
    construction.  The default-constructed value is the success outcome. *)
Record ErrorInformation : Type := {
  isThereAnError : bool;
  errorMessage : string;
  errorNumber : Z;
  exeName : option string
}.

(** [ErrorInformation{}] and [return {};] *)
Definition NoError : ErrorInformation :=
  {| isThereAnError := false; errorMessage := EmptyString;
     errorNumber := 0; exeName := None |}.

(** [ErrorInformation{ message, number }] *)
Definition MkError (message : string) (number : Z) : ErrorInformation :=
  {| isThereAnError := true; errorMessage := message;
     errorNumber := number; exeName := None |}.

(** [ErrorInformation{ message, number, exeName }] *)
Definition MkErrorFor (message : string) (number : Z) (exe : string)
  : ErrorInformation :=
  {| isThereAnError := true; errorMessage := message;
     errorNumber := number; exeName := Some exe |}.

Definition IsThereAnError (e : ErrorInformation) : bool := isThereAnError e.
(** The number is a [DWORD]: a registry status cast to one, or the value of
    [GetLastError()]. *)
Definition GetErrorNumber (e : ErrorInformation) : Z := errorNumber e.
Definition AddExeName (e : ErrorInformation) (exe : string) : ErrorInformation :=
  {| isThereAnError := isThereAnError e; errorMessage := errorMessage e;
     errorNumber := errorNumber e; exeName := Some exe |}.

(** ** The configuration objects ([psf::json_object])

    Each object is embedded as a record of the keys the launcher reads.  A
    key read with [get] or dereferenced without a test is a plain field, a
    key read with [try_get] is an [option]; the field type is the one the
    launcher converts the value to ([as_string], [as_boolean]). *)

Record AppLaunchConfig : Type := {
  executable : string;
  arguments : option string;
  workingDirectory : option string
}.

Record ScriptInformation : Type := {
  scriptPath : string;
  scriptArguments : option string;
  runInVirtualEnvironment : option string
}.

Record MonitorConfig : Type := {
  monitor_executable : string;
  monitor_arguments : string;
  asadmin : option bool;
  wait : option bool
}.

(** ** [Log] and [LogString]

    The trace helpers write one line to the debugger.  A format is expanded
    as [std::vsnprintf] does it for the directives the launcher uses; what
    is embedded of [Log] itself is the buffer handling around
    [std::vsnprintf]. *)

Module Logging.

(** [max_size()] of a [std::string] on a 64-bit target. *)
Definition string_max_size : Z := 2 ^ 63 - 1.
Definition INT_MAX : Z := 2 ^ 31 - 1.

(** An [int] stored in a [std::size_t]. *)
Definition size_t_of_int (r : Z) : Z := r mod 2 ^ 64.

Definition tab : ascii := "009"%char.
Definition newline : ascii := "010"%char.

(** An argument of a variadic call: a [const char*] or a [const wchar_t*]. *)
Inductive Arg : Type :=
| ArgStr (s : string)
| ArgWStr (s : string).

(** What a format and its arguments expand to.  Ordinary characters are
    copied; [%s] copies the narrow string that is the next argument; [%ls]
    converts the wide string that is the next argument to multibyte
    characters with [narrow], which has no result when a character of the
    string has no multibyte form: the expansion fails then.  The launcher
    uses no other directive and gives every directive its argument; an
    expansion that asks for an argument of the other kind, or for one that
    is not there, has no result. *)
Fixpoint vformat (narrow : string -> option string) (fmt : string)
    (args : list Arg) : option string :=
  match fmt with
  | EmptyString => Some EmptyString
  | String "%" (String "l" (String "s" rest)) =>
      match args with
      | ArgWStr a :: args' =>
          match narrow a, vformat narrow rest args' with
          | Some t, Some r => Some (t ++ r)
          | _, _ => None
          end
      | _ => None
      end
  | String "%" (String "s" rest) =>
      match args with
      | ArgStr a :: args' =>
          match vformat narrow rest args' with
          | Some r => Some (a ++ r)
          | None => None
          end
      | _ => None
      end
  | String c rest =>
      match vformat narrow rest args with
      | Some r => Some (String c r)
      | None => None
      end
  end.

(** [str.resize(n)]: the first [n] characters, padded with null characters. *)
Fixpoint resize (s : string) (n : nat) : string :=
  match n with
  | O => EmptyString
  | S n' =>
      match s with
      | EmptyString => String Ascii.zero (resize EmptyString n')
      | String c s' => String c (resize s' n')
      end
  end.

(** The first characters of [buf] replaced by those of [src]; [buf] keeps its
    length, what does not fit is dropped. *)
Fixpoint overwrite (buf src : string) : string :=
  match buf with
  | EmptyString => EmptyString
  | String b buf' =>
      match src with
      | EmptyString => buf
      | String c src' => String c (overwrite buf' src')
      end
  end.

(** [std::vsnprintf(buf.data(), bufsz, fmt, args)] on the characters of a
    string [buf] of size [bufsz - 1], where [expansion] is what the format and
    its arguments expand to, [None] when the expansion fails.  At most
    [bufsz - 1] characters of the expansion and a terminating null are
    written (the null falls into the string's own terminator when the
    buffer is full); the result is the length of the whole expansion, and
    negative when the expansion fails or its length is no [int]. *)
Definition vsnprintf (buf : string) (bufsz : Z) (expansion : option string)
  : string * Z :=
  match expansion with
  | None => (buf, -1)
  | Some text =>
      if INT_MAX <? size text then (buf, -1)
      else
        let written := Z.to_nat (Z.min (size text) (bufsz - 1)) in
        (overwrite buf (substring 0 written text ++ String Ascii.zero EmptyString),
         size text)
  end.

(** [Log(fmt, ...)]: the string whose [c_str()] is handed to
    [OutputDebugStringA], or [None] when [resize] throws
    [std::length_error], which ends the process since [Log] is [noexcept]. *)
Definition Log (expansion : option string) : option string :=
  let str := EmptyString in
  let str := resize str 256 in
  let '(str, r) := vsnprintf str (size str + 1) expansion in
  (* assert(count >= 0) holds of every std::size_t *)
  let count := size_t_of_int r in
  let second :=
    if size str <? count then
      if string_max_size <? count then None
      else
        let str := resize str (Z.to_nat count) in
        let '(str, r) := vsnprintf str (size str + 1) expansion in
        Some (str, size_t_of_int r)
    else Some (str, count) in
  match second with
  | None => None
  | Some (str, count) =>
      if string_max_size <? count then None
      else Some (resize str (Z.to_nat count))
  end.

End Logging.
Export Logging.

(** ** What the launcher asks of Windows *)

Record STARTUPINFOEXW : Type := {
  dwFlags : Z;
  wShowWindow : Z;
  (** [nullptr], or the attributes that were set in the allocated list *)
  lpAttributeList : option (list (Z * Z))
}.

(** What a pointer kept in a request refers to when the request is made:
    the characters of a string that is still alive, or the buffer of a
    temporary object that held [s] and was destroyed at the end of the
    declaration whose initializer produced the pointer. *)
Inductive Referent : Type :=
| Alive (s : string)
| Destroyed (s : string).

Record SHELLEXECUTEINFOW : Type := {
  fMask : Z;
  lpVerb : LPCWSTR;
  lpFile : string;
  lpParameters : string;
  (** [nullptr], or where the pointer points *)
  lpDirectory : option Referent;
  nShow : Z
}.

(** The stages of the pipeline, for the ghost event [EvStage]. *)
Inductive Stage : Type :=
| StProbe | StStartScript | StMonitor | StApplication | StEndScript.

(** One entry per call that leaves the launcher, with what came back.  A result
    of type [option Z] is [None] when the call succeeded and [Some err] when
    it failed with [GetLastError() = err].  [EvStage] is a ghost entry written
    by [launcher_main] when a stage has returned; it records the stage's
    outcome and plays no part in the control flow. *)
Inductive Event : Type :=
| EvRegCreateKeyExW (subKey : string) (result : Z)
| EvRegQueryValueExW (valueName : string) (result value : Z)
| EvFileExists (p : string) (result : bool)
| EvCoInitializeEx
| EvInitializeProcThreadAttributeList (allocated : bool) (result : option Z)
| EvHeapAlloc
| EvUpdateProcThreadAttribute (attribute value : Z) (result : option Z)
| EvCreateProcessW (execInfo : ExecutionInformation)
    (inheritHandles : bool) (creationFlags : Z)
    (startupInfo : STARTUPINFOEXW) (result : option Z)
| EvWaitForSingleObject (timeout waitResult : Z)
| EvWaitForInputIdle (timeout : Z)
| EvSleep (ms : Z)
| EvCloseHandle
| EvShellExecuteEx (info : SHELLEXECUTEINFOW) (result : option Z)
| EvOutputDebugStringA (text : string)
| EvPSFReportError (text : string)
| EvStage (s : Stage) (outcome : ErrorInformation).

Definition Trace : Type := list Event.

(** A call is recorded at the end of the history. *)
Definition emit (w : Trace) (e : Event) : Trace := (w ++ [e])%list.

(** The collaborators of one launcher run.  The configuration answers are
    fixed for the run; every answer of the operating system may depend on
    the calls made before it. *)
Record Host : Type := {
  (* config provider, psf_runtime.h *)
  PSFQueryCurrentAppLaunchConfig : option AppLaunchConfig;
  PSFQueryPackageRootPath : string;
  PSFQueryStartScriptInfo : option ScriptInformation;
  PSFQueryEndScriptInfo : option ScriptInformation;
  PSFQueryAppMonitorConfig : option MonitorConfig;
  (* std::filesystem::path: operator/ and filename() *)
  path_append : string -> string -> string;
  path_filename : string -> string;
  (* ErrorInformation::Print, declared in ErrorInformation.h *)
  Print : ErrorInformation -> string;
  (* the C runtime: the multibyte form of a wide string in the current
     locale, none when a character of the string has no such form *)
  narrow : string -> option string;
  (* the registry *)
  RegCreateKeyExW : Trace -> string -> Z;
  RegQueryValueExW : Trace -> string -> Z * Z;
  (* std::filesystem::exists *)
  exists_ : Trace -> string -> bool;
  (* process services *)
  InitializeProcThreadAttributeList : Trace -> option Z;
  UpdateProcThreadAttribute : Trace -> Z -> Z -> option Z;
  CreateProcessW : Trace -> ExecutionInformation -> STARTUPINFOEXW -> option Z;
  (* the wait result and the value of GetLastError() after it *)
  WaitForSingleObject : Trace -> Z * Z;
  ShellExecuteEx : Trace -> SHELLEXECUTEINFOW -> option Z
}.

Section Launcher.

Variable h : Host.

Local Notation "p // q" := (path_append h p q) (at level 40, left associativity).

(** [::PSFReportError(text)] *)
Definition PSFReportError (text : string) (w : Trace) : Trace :=
  emit w (EvPSFReportError text).

(** Modelled from the spec: [throw_win32], [message_from_caught_exception]
    and [win32_from_caught_exception] are declared outside [src/].  The spec
    has the orchestrator fail with the missing-entry error and report it to
    the host reporter.  The exception thrown in [launcher_main] is caught by
    the [catch (...)] of the function itself: the message is reported and the
    code is returned. *)
Definition throw_win32 (code : Z) (message : string) (w : Trace) : Z * Trace :=
  (code, PSFReportError message w).

(** *** [Log] as the launcher calls it

    The format is expanded, [Log] prepares the text and hands it to
    [OutputDebugStringA].  There is no result when [Log] does not return:
    the exception that leaves the [noexcept] function ends the process, and
    nothing after the call happens. *)
Definition Log_line (fmt : string) (args : list Arg) (w : Trace) : option Trace :=
  match Log (vformat (narrow h) fmt args) with
  | Some str => Some (emit w (EvOutputDebugStringA str))
  | None => None
  end.

(** [LogString(name, value)] for a narrow and for a wide value. *)
Definition LogString (name value : string) (w : Trace) : option Trace :=
  Log_line (String tab ("%s=%s" ++ String newline EmptyString))
    [ArgStr name; ArgStr value] w.

Definition LogStringW (name value : string) (w : Trace) : option Trace :=
  Log_line (String tab ("%s=%ls" ++ String newline EmptyString))
    [ArgStr name; ArgWStr value] w.

(** *** [StartProcess] *)

(** The name that [StartProcess] puts in its message when [CreateProcessW]
    fails and no application name was given. *)
Definition applicationNameForError (commandLine : string) : string :=
  if Ascii.eqb (at_ commandLine 0) dquote
  then substr commandLine 1 (size_t_sub (find commandLine dquote 1) 1)
  else substr commandLine 0 (find commandLine space 0).

Definition StartProcess (execInfo : ExecutionInformation) (cmdShow : Z)
    (runInVirtualEnvironment : bool) (w : Trace) : ErrorInformation * Trace :=
  let startupInfoEx :=
    {| dwFlags := STARTF_USESHOWWINDOW;
       wShowWindow := WORD_of_int cmdShow;
       lpAttributeList := None |} in
  let '(startupInfoEx, w) :=
    if runInVirtualEnvironment then
      (* a failure of either call builds an ErrorInformation in a local
         that goes out of scope; the launch goes on *)
      (* the first call asks for the size of the list, the second fills the
         allocated list *)
      let sized := InitializeProcThreadAttributeList h w in
      let w := emit w (EvInitializeProcThreadAttributeList false sized) in
      let w := emit w EvHeapAlloc in
      let initialized := InitializeProcThreadAttributeList h w in
      let w := emit w (EvInitializeProcThreadAttributeList true initialized) in
      let attribute := PROCESS_CREATION_DESKTOP_APP_BREAKAWAY_DISABLE_PROCESS_TREE in
      let updated :=
        UpdateProcThreadAttribute h w
          PROC_THREAD_ATTRIBUTE_DESKTOP_APP_POLICY attribute in
      let w := emit w (EvUpdateProcThreadAttribute
                         PROC_THREAD_ATTRIBUTE_DESKTOP_APP_POLICY attribute updated) in
      ({| dwFlags := dwFlags startupInfoEx;
          wShowWindow := wShowWindow startupInfoEx;
          lpAttributeList :=
            Some (match updated with
                  | None => [(PROC_THREAD_ATTRIBUTE_DESKTOP_APP_POLICY, attribute)]
                  | Some _ => []
                  end) |}, w)
    else (startupInfoEx, w) in
  let created := CreateProcessW h w execInfo startupInfoEx in
  let w := emit w (EvCreateProcessW execInfo true EXTENDED_STARTUPINFO_PRESENT
                     startupInfoEx created) in
  match created with
  | None =>
      let '(waitResult, lastError) := WaitForSingleObject h w in
      let w := emit w (EvWaitForSingleObject INFINITE waitResult) in
      if waitResult =? WAIT_OBJECT_0
      then (NoError, w)
      else (MkError "Running process failed." lastError, w)
  | Some err =>
      match ApplicationName execInfo with
      | Some name =>
          (MkError ("ERROR: Failed to create a process for " ++ name ++ " ") err, w)
      | None =>
          (MkError ("ERROR: Failed to create a process for "
                    ++ applicationNameForError (CommandLine execInfo) ++ " ") err, w)
      end
  end.

(** *** [check_suffix_if] *)

(** The right operand of [&&] is only evaluated when the left one holds. *)
Definition check_suffix_if (str suffix : string) : bool :=
  if size suffix <=? size str
  then iwstring_eqb (substr str (size_t_sub (size str) (size suffix)) npos) suffix
  else false.

(** *** [RunScript] *)

Definition RunScript (scriptInformation : ScriptInformation)
    (packageRoot : string) (dirStr : LPCWSTR) (cmdShow : Z) (w : Trace)
  : ErrorInformation * Trace :=
  let powershellCommandString := "Powershell.exe -file " in
  let scriptPath := scriptPath scriptInformation in
  let powershellCommandString := powershellCommandString ++ scriptPath in
  let powershellCommandString := powershellCommandString ++ " " in
  let scriptArgumentsJObject := scriptArguments scriptInformation in
  let powershellCommandString :=
    match scriptArgumentsJObject with
    | Some a => powershellCommandString ++ a
    | None => powershellCommandString
    end in
  let currentDirectory := packageRoot // deref dirStr in
  let powershellScriptPath := scriptPath in
  let doesFileExist := exists_ h w (currentDirectory // powershellScriptPath) in
  let w := emit w (EvFileExists (currentDirectory // powershellScriptPath) doesFileExist) in
  if doesFileExist then
    let runInVirtualEnvironmentJObject := runInVirtualEnvironment scriptInformation in
    let runInVirtualEnvironment := false in
    let runInVirtualEnvironment :=
      match runInVirtualEnvironmentJObject with
      | Some v => bool_of_pointer (wide v)
      | None => runInVirtualEnvironment
      end in
    let execInfo :=
      {| ApplicationName := None;
         CommandLine := powershellCommandString;
         CurrentDirectory := Some currentDirectory |} in
    StartProcess execInfo cmdShow runInVirtualEnvironment w
  else
    let errorMessage := "The PowerShell file " in
    let errorMessage := errorMessage ++ (currentDirectory // powershellScriptPath) in
    let errorMessage := errorMessage ++ " can't be found" in
    (MkError errorMessage ERROR_FILE_NOT_FOUND, w).

(** *** [LaunchMonitorInBackground] and [GetAndLaunchMonitor]

    A stage that calls [Log] returns its outcome, or [None] when the
    process ended in [Log]. *)

Definition LaunchMonitorInBackground (packageRoot executable arguments : string)
    (wait asAdmin : bool) (cmdShow : Z) (dirStr : LPCWSTR) (w : Trace)
  : ErrorInformation * Trace :=
  let cmd := String dquote (packageRoot // executable) ++ String dquote EmptyString in
  if asAdmin then
    let shExInfo :=
      {| fMask := if wait then SEE_MASK_NOCLOSEPROCESS
                  else Z.lor SEE_MASK_NOCLOSEPROCESS SEE_MASK_WAITFORINPUTIDLE;
         lpVerb := Some "runas";
         lpFile := cmd;
         lpParameters := arguments;
         lpDirectory := None;
         nShow := 1 |} in
    let launched := ShellExecuteEx h w shExInfo in
    let w := emit w (EvShellExecuteEx shExInfo launched) in
    match launched with
    | None =>
        if wait then
          let w := emit w (EvWaitForSingleObject INFINITE (fst (WaitForSingleObject h w))) in
          let w := emit w EvCloseHandle in
          (NoError, w)
        else
          let w := emit w (EvWaitForInputIdle 1000) in
          let w := emit w (EvSleep 5000) in
          (NoError, w)
    | Some err =>
        (* the record is built in a local of the else block, which ends
           here; control reaches the final [return {};] *)
        let error := MkErrorFor "error starting monitor using ShellExecuteEx" err executable in
        (NoError, w)
    end
  else
    let execInfo :=
      {| ApplicationName := Some executable;
         CommandLine := cmd ++ " " ++ arguments;
         CurrentDirectory := None |} in
    let currentDirectory := packageRoot // deref dirStr in
    let execInfo :=
      {| ApplicationName := ApplicationName execInfo;
         CommandLine := CommandLine execInfo;
         CurrentDirectory := Some currentDirectory |} in
    let '(error, w) := StartProcess execInfo cmdShow false w in
    let error := AddExeName error executable in
    (error, w).

Definition GetAndLaunchMonitor (monitor : MonitorConfig) (packageRoot : string)
    (cmdShow : Z) (dirStr : LPCWSTR) (w : Trace)
  : option ErrorInformation * Trace :=
  let asAdmin := false in
  let wait_ := false in
  let monitorExecutable := monitor_executable monitor in
  let monitorArguments := monitor_arguments monitor in
  let monitorAsAdmin := asadmin monitor in
  let monitorWait := wait monitor in
  let asAdmin := match monitorAsAdmin with Some b => b | None => asAdmin end in
  let wait_ := match monitorWait with Some b => b | None => wait_ end in
  match Log_line (String tab "Creating the monitor: %ls")
          [ArgWStr monitorExecutable] w with
  | None => (None, w)
  | Some w =>
      let '(error, w) :=
        LaunchMonitorInBackground packageRoot monitorExecutable monitorArguments
          wait_ asAdmin cmdShow dirStr w in
      (Some error, w)
  end.

(** *** [StartWithShellExecute] *)

Definition StartWithShellExecute (packageRoot exeName exeArgString : string)
    (dirStr : LPCWSTR) (cmdShow : Z) (w : Trace)
  : option ErrorInformation * Trace :=
  let nonExePath := packageRoot // exeName in
  let shex :=
    {| fMask := SEE_MASK_NOCLOSEPROCESS;
       lpVerb := None;
       lpFile := nonExePath;
       lpParameters := exeArgString;
       (* [c_str()] of the temporary [packageRoot / dirStr], which is
          destroyed at the end of the declaration of [shex] *)
       lpDirectory := if bool_of_pointer dirStr
                      then Some (Destroyed (packageRoot // deref dirStr))
                      else None;
       nShow := WORD_of_int cmdShow |} in
  match Log_line (String tab "Using Shell launch: %ls %ls")
          [ArgWStr (lpFile shex); ArgWStr (lpParameters shex)] w with
  | None => (None, w)
  | Some w =>
      let launched := ShellExecuteEx h w shex in
      let w := emit w (EvShellExecuteEx shex launched) in
      match launched with
      | Some err =>
          (Some (MkError "ERROR: Failed to create detoured shell process" err), w)
      | None => (Some NoError, w)
      end
  end.

(** *** [CheckIfPowershellIsInstalled]

    The [bool&] parameter is passed in and handed back. *)

Definition CheckIfPowershellIsInstalled (isPowershellInstalled : bool) (w : Trace)
  : ErrorInformation * bool * Trace :=
  let subKey := "SOFTWARE\Microsoft\PowerShell\1" in
  let createResult := RegCreateKeyExW h w subKey in
  let w := emit w (EvRegCreateKeyExW subKey createResult) in
  if negb (createResult =? ERROR_SUCCESS) then
    (MkError "Error with getting the key to see if PowerShell is installed. "
       (DWORD_of_LSTATUS createResult), isPowershellInstalled, w)
  else
    let '(getResult, valueFromRegistry) := RegQueryValueExW h w "Install" in
    let w := emit w (EvRegQueryValueExW "Install" getResult valueFromRegistry) in
    if negb (getResult =? ERROR_SUCCESS) then
      (MkError "Error with querying the key to see if PowerShell is installed. "
         (DWORD_of_LSTATUS getResult), isPowershellInstalled, w)
    else
      let isPowershellInstalled :=
        if valueFromRegistry =? 1 then true else false in
      (NoError, isPowershellInstalled, w).

(** *** [launcher_main]

    The function returns the exit code, an [int]; the history it leaves
    behind is the second component.  There is no exit code when the process
    ended in [Log] before the function returned.  A [return] in the middle
    of the function, and the end of the process, is an [inl] of the block it
    sits in. *)

Definition launcher_main (args : string) (cmdShow : Z) : option Z * Trace :=
  let w : Trace := [] in
  match Log_line (String tab "In Launcher_main()") [] w with
  | None => (None, w)
  | Some w =>
  match PSFQueryCurrentAppLaunchConfig h with
  | None =>
      let '(code, w) :=
        throw_win32 ERROR_NOT_FOUND
          "Error: could not find matching appid in config.json and appx manifest" w in
      (Some code, w)
  | Some appConfig =>
  let dirPtr := workingDirectory appConfig in
  let dirStr := match dirPtr with Some d => wide d | None => wide EmptyString end in
  let exeArgs := arguments appConfig in
  let packageRoot := PSFQueryPackageRootPath h in
  let isPowershellInstalled := false in
  let '(error, isPowershellInstalled, w) :=
    CheckIfPowershellIsInstalled isPowershellInstalled w in
  let w := emit w (EvStage StProbe error) in
  if IsThereAnError error then
    (Some (int_of_DWORD (GetErrorNumber error)), PSFReportError (Print h error) w)
  else
  (* Launch the starting PowerShell script if we are using one. *)
  let startScriptInformation := PSFQueryStartScriptInfo h in
  match
    match startScriptInformation with
    | Some startScript =>
        if negb isPowershellInstalled then
          inl (Some E_APPLICATION_NOT_REGISTERED,
               PSFReportError
                 "PowerShell is not installed.  Please install PowerShell to run scripts in PSF"
                 w)
        else
          let '(error, w) := RunScript startScript packageRoot dirStr cmdShow w in
          let w := emit w (EvStage StStartScript error) in
          if IsThereAnError error then
            inl (Some (int_of_DWORD (GetErrorNumber error)),
                 PSFReportError (Print h error) w)
          else inr (error, w)
    | None => inr (error, w)
    end
  with
  | inl exit => exit
  | inr (error, w) =>
  (* Launch monitor if we are using one. *)
  let monitor := PSFQueryAppMonitorConfig h in
  match
    match monitor with
    | Some monitor =>
        let w := emit w EvCoInitializeEx in
        match GetAndLaunchMonitor monitor packageRoot cmdShow dirStr w with
        | (None, w) => inl (None, w)
        | (Some error, w) => inr (error, emit w (EvStage StMonitor error))
        end
    | None => inr (error, w)
    end
  with
  | inl exit => exit
  | inr (error, w) =>
  match
    if negb (IsThereAnError error) then
      (* Launch underlying application. *)
      let exeName := executable appConfig in
      let exePath := packageRoot // exeName in
      let exeArgString := match exeArgs with Some a => a | None => EmptyString end in
      let cmdLine :=
        String dquote (path_filename h exePath)
        ++ String dquote " " ++ exeArgString ++ " " ++ args in
      match
        if check_suffix_if exeName ".exe" then
          let execInfo :=
            {| ApplicationName := Some exePath;
               CommandLine := cmdLine;
               CurrentDirectory := None |} in
          let currentDirectory := packageRoot // deref dirStr in
          let execInfo :=
            {| ApplicationName := ApplicationName execInfo;
               CommandLine := CommandLine execInfo;
               CurrentDirectory := Some currentDirectory |} in
          let '(error, w) := StartProcess execInfo cmdShow false w in
          (Some (AddExeName error exeName), w)
        else
          StartWithShellExecute packageRoot exeName exeArgString dirStr cmdShow w
      with
      | (None, w) => inl (None, w)
      | (Some error, w) => inr (error, emit w (EvStage StApplication error))
      end
    else inr (error, w)
  with
  | inl exit => exit
  | inr (error, w) =>
  (* Launch the end PowerShell script if we are using one. *)
  let endScriptInformation := PSFQueryEndScriptInfo h in
  match endScriptInformation with
  | Some endScript =>
      let '(endingScriptError, w) :=
        RunScript endScript packageRoot dirStr cmdShow w in
      let w := emit w (EvStage StEndScript endingScriptError) in
      let error := AddExeName error "PowerShell.exe" in
      (* If there is an existing error from Monitor or the packaged exe *)
      if IsThereAnError error then
        (Some (int_of_DWORD (GetErrorNumber error)),
         PSFReportError (Print h error) w)
      else if IsThereAnError endingScriptError then
        (Some (int_of_DWORD (GetErrorNumber endingScriptError)),
         PSFReportError (Print h endingScriptError) w)
      else (Some 0, w)
  | None => (Some 0, w)
  end
  end
  end
  end
  end
  end.

End Launcher.

(** * Specification-level notions *)

(** The calls made between the history [w] and the longer history [w']. *)
Definition since (w w' : Trace) : Trace := skipn (List.length w) w'.

(** The prefix of [s] before the first [ch]; all of [s] when it has none. *)
Fixpoint take_until (ch : ascii) (s : string) : string :=
  match s with
  | EmptyString => EmptyString
  | String c s' => if Ascii.eqb c ch then EmptyString else String c (take_until ch s')
  end.

(** The program token of a command line as the spec words it: between the
    first pair of quotes when the line starts with a quote, up to the first
    space otherwise. *)
Definition quote_aware_name_spec (commandLine : string) : string :=
  match commandLine with
  | String c rest =>
      if Ascii.eqb c dquote then take_until dquote rest
      else take_until space commandLine
  | EmptyString => EmptyString
  end.



(** * Reading a history *)

Definition is_stage (ev : Event) : bool :=
  match ev with EvStage _ _ => true | _ => false end.

Definition is_report (ev : Event) : bool :=
  match ev with EvPSFReportError _ => true | _ => false end.

(** A child process is started by [CreateProcessW] or [ShellExecuteEx]. *)
Definition is_launch (ev : Event) : bool :=
  match ev with
  | EvCreateProcessW _ _ _ _ _ | EvShellExecuteEx _ _ => true
  | _ => false
  end.

(** Calls to the operating system, as opposed to reports and ghost entries. *)
Definition os_calls (d : Trace) : bool :=
  forallb (fun ev => negb (is_stage ev || is_report ev)) d.

(** What was handed to the host reporter, in order. *)
Definition reports (tr : Trace) : list string :=
  flat_map (fun ev => match ev with EvPSFReportError t => [t] | _ => [] end) tr.

(** The child launches of a history, in order. *)
Definition launches (tr : Trace) : Trace := filter is_launch tr.


(** A history is cut at its ghost entries: every stage that returned, with its
    outcome and the calls made since the stage before it, and the calls made
    after the last stage. *)
Definition StageRun : Type := Stage * ErrorInformation * Trace.

Definition cut_step (st : list StageRun * Trace) (ev : Event)
  : list StageRun * Trace :=
  match ev with
  | EvStage s e => ((fst st ++ [(s, e, snd st)])%list, [])
  | _ => (fst st, (snd st ++ [ev])%list)
  end.

Definition cut (tr : Trace) : list StageRun * Trace :=
  fold_left cut_step tr ([], []).

Definition stage_groups (tr : Trace) : list StageRun := fst (cut tr).
Definition pending (tr : Trace) : Trace := snd (cut tr).

(** The working directory that [launcher_main] hands to every stage. *)
Definition dirStr_of (appConfig : AppLaunchConfig) : LPCWSTR :=
  match workingDirectory appConfig with
  | Some d => wide d
  | None => wide EmptyString
  end.


(** The registry key and the value that record whether PowerShell is installed. *)
Definition install_key : string := "SOFTWARE\Microsoft\PowerShell\1".

(** The key can be opened at history [w]. *)
Definition key_opens (h : Host) (w : Trace) : Prop :=
  RegCreateKeyExW h w install_key = ERROR_SUCCESS.

(** The answer to the query for the install marker, once the key is open:
    the status and the value read.  An absent value gives the status
    [ERROR_FILE_NOT_FOUND]. *)
Definition marker_query (h : Host) (w : Trace) : Z * Z :=
  RegQueryValueExW h (emit w (EvRegCreateKeyExW install_key ERROR_SUCCESS)) "Install".

(** The command line of a script stage. *)
Definition script_command_line (spec : ScriptInformation) : string :=
  "Powershell.exe -file " ++ scriptPath spec ++ " "
  ++ match scriptArguments spec with Some a => a | None => EmptyString end.

(** The file a script stage looks for. *)
Definition script_full_path (h : Host) (spec : ScriptInformation)
    (packageRoot : string) (dirStr : LPCWSTR) : string :=
  path_append h (path_append h packageRoot (deref dirStr)) (scriptPath spec).

(** The request a script stage hands to [StartProcess]. *)
Definition script_request (h : Host) (spec : ScriptInformation)
    (packageRoot : string) (dirStr : LPCWSTR) : ExecutionInformation :=
  {| ApplicationName := None;
     CommandLine := script_command_line spec;
     CurrentDirectory := Some (path_append h packageRoot (deref dirStr)) |}.

(** The setting as the script stage reads it: set when the key is there. *)
Definition venv_setting (spec : ScriptInformation) : bool :=
  match runInVirtualEnvironment spec with
  | Some _ => true
  | None => false
  end.

(** The command line of the packaged application: the quoted file name, the
    configured arguments, the launcher's own arguments. *)
Definition application_command_line (h : Host) (appConfig : AppLaunchConfig)
    (args : string) : string :=
  String dquote
    (path_filename h (path_append h (PSFQueryPackageRootPath h) (executable appConfig)))
  ++ String dquote " "
  ++ match arguments appConfig with Some a => a | None => EmptyString end
  ++ " " ++ args.

(** The request of the direct-exec strategy. *)
Definition application_request (h : Host) (appConfig : AppLaunchConfig)
    (args : string) : ExecutionInformation :=
  {| ApplicationName :=
       Some (path_append h (PSFQueryPackageRootPath h) (executable appConfig));
     CommandLine := application_command_line h appConfig args;
     CurrentDirectory :=
       Some (path_append h (PSFQueryPackageRootPath h)
               (deref (dirStr_of appConfig))) |}.

(** * The log lines of a run *)

(** The line that [launcher_main] writes first, and the history it leaves. *)
Definition launcher_banner : string := String tab "In Launcher_main()".
Definition launcher_start : Trace := [EvOutputDebugStringA launcher_banner].

(** The line that announces the monitor, as [Log] prepares it; [None] when
    [Log] does not return for it. *)
Definition monitor_line (h : Host) (monitor : MonitorConfig) : option string :=
  Log (vformat (narrow h) (String tab "Creating the monitor: %ls")
         [ArgWStr (monitor_executable monitor)]).

(** The line that announces the shell activation of [exeName] with the
    arguments [exeArgString]. *)
Definition shell_line (h : Host) (packageRoot exeName exeArgString : string)
  : option string :=
  Log (vformat (narrow h) (String tab "Using Shell launch: %ls %ls")
         [ArgWStr (path_append h packageRoot exeName); ArgWStr exeArgString]).

(** The configured arguments of the application, the empty string when there
    are none. *)
Definition configured_arguments (appConfig : AppLaunchConfig) : string :=
  match arguments appConfig with
  | Some a => a
  | None => EmptyString
  end.

(** Both lines can be written on this host: the one of the monitor when a
    monitor is configured, the one of the shell activation when the
    application is no [.exe]. *)
Definition lines_written (h : Host) (appConfig : AppLaunchConfig) : Prop :=
  (forall monitor, PSFQueryAppMonitorConfig h = Some monitor ->
                   monitor_line h monitor <> None)
  /\ (check_suffix_if (executable appConfig) ".exe" = false ->
      shell_line h (PSFQueryPackageRootPath h) (executable appConfig)
        (configured_arguments appConfig) <> None).

(** * The start of a run *)

(** The history with which a run goes on to the monitor and the application:
    the first line, the probe and, when a starting script is configured,
    that script.  There is none when the run ends before: the probe
    returned an error, or a starting script is configured and PowerShell is
    not installed or the script returned an error. *)
Definition prologue (h : Host) (appConfig : AppLaunchConfig) (cmdShow : Z)
  : option Trace :=
  let '(error, installed, w) := CheckIfPowershellIsInstalled h false launcher_start in
  let w := emit w (EvStage StProbe error) in
  if IsThereAnError error then None
  else
    match PSFQueryStartScriptInfo h with
    | None => Some w
    | Some startScript =>
        if installed then
          let '(error, w) :=
            RunScript h startScript (PSFQueryPackageRootPath h)
              (dirStr_of appConfig) cmdShow w in
          if IsThereAnError error then None
          else Some (emit w (EvStage StStartScript error))
        else None
    end.

(** The place of a stage in the pipeline. *)
Definition stage_rank (s : Stage) : nat :=
  match s with
  | StProbe => 0
  | StStartScript => 1
  | StMonitor => 2
  | StApplication => 3
  | StEndScript => 4
  end.

(** The stages of a history, in the order in which they returned. *)
Definition stages (tr : Trace) : list Stage :=
  map (fun g : StageRun => fst (fst g)) (stage_groups tr).

(** [s] starts with [p]. *)
Fixpoint starts_with (p s : string) : bool :=
  match p with
  | EmptyString => true
  | String a p' =>
      match s with
      | String b s' => Ascii.eqb a b && starts_with p' s'
      | EmptyString => false
      end
  end.

(** What holds of every [CreateProcessW] of a run that was started with the
    show mode [cmdShow] and whose stages work in the directory [dir]: handles
    are inherited, the extended startup information is announced and carries
    the show mode as a [WORD], the child starts in [dir], and a launch
    without an application name is a PowerShell command line. *)
Definition direct_launch_ok (cmdShow : Z) (dir : string) (ev : Event) : bool :=
  match ev with
  | EvCreateProcessW execInfo inheritHandles creationFlags si _ =>
      inheritHandles
      && (creationFlags =? EXTENDED_STARTUPINFO_PRESENT)
      && (dwFlags si =? STARTF_USESHOWWINDOW)
      && (wShowWindow si =? WORD_of_int cmdShow)
      && match CurrentDirectory execInfo with
         | Some d => String.eqb d dir
         | None => false
         end
      && match ApplicationName execInfo with
         | Some _ => true
         | None => starts_with "Powershell.exe -file " (CommandLine execInfo)
         end
  | _ => true
  end.

(** The request of a monitor that is not elevated. *)
Definition monitor_request (h : Host) (monitor : MonitorConfig)
    (packageRoot : string) (dirStr : LPCWSTR) : ExecutionInformation :=
  {| ApplicationName := Some (monitor_executable monitor);
     CommandLine :=
       String dquote (path_append h packageRoot (monitor_executable monitor))
       ++ String dquote " " ++ monitor_arguments monitor;
     CurrentDirectory := Some (path_append h packageRoot (deref dirStr)) |}.

(** * Concrete hosts

    A package rooted at [/pkg] on a host whose paths use forward slashes.
    The theorems below are stated for every [Host]; these hosts are the
    inputs at which they are exercised. *)

Module Demo.

Fixpoint ends_with_slash (p : string) : bool :=
  match p with
  | EmptyString => false
  | String c EmptyString => Ascii.eqb c "/"
  | String _ p' => ends_with_slash p'
  end.

(** [p / q] for a relative or rooted [q]. *)
Definition join (p q : string) : string :=
  match q with
  | String "/" _ => q
  | _ => match p with
         | EmptyString => q
         | _ => if ends_with_slash p then p ++ q else p ++ "/" ++ q
         end
  end.

Fixpoint has_slash (p : string) : bool :=
  match p with
  | EmptyString => false
  | String c p' => Ascii.eqb c "/" || has_slash p'
  end.

(** [p.filename()]: what follows the last separator. *)
Fixpoint filename (p : string) : string :=
  match p with
  | EmptyString => EmptyString
  | String c p' => if has_slash p then filename p' else p
  end.

Definition mem (p : string) (files : list string) : bool :=
  existsb (String.eqb p) files.

(** A host whose answers do not depend on the history: the registry key
    opens with [key], the marker query gives [install], the files on disk
    are [files], and [create] and [shell] decide every launch. *)
Definition host (app : option AppLaunchConfig)
    (startScript endScript : option ScriptInformation)
    (monitor : option MonitorConfig)
    (key : Z) (install : Z * Z) (files : list string)
    (create : ExecutionInformation -> option Z)
    (shell : SHELLEXECUTEINFOW -> option Z) : Host :=
  {| PSFQueryCurrentAppLaunchConfig := app;
     PSFQueryPackageRootPath := "/pkg";
     PSFQueryStartScriptInfo := startScript;
     PSFQueryEndScriptInfo := endScript;
     PSFQueryAppMonitorConfig := monitor;
     path_append := join;
     path_filename := filename;
     Print := errorMessage;
     narrow := Some;
     RegCreateKeyExW := fun _ _ => key;
     RegQueryValueExW := fun _ _ => install;
     exists_ := fun _ p => mem p files;
     InitializeProcThreadAttributeList := fun _ => None;
     UpdateProcThreadAttribute := fun _ _ _ => None;
     CreateProcessW := fun _ execInfo _ => create execInfo;
     WaitForSingleObject := fun _ => (WAIT_OBJECT_0, 0);
     ShellExecuteEx := fun _ info => shell info |}.

Definition app_exe : AppLaunchConfig :=
  {| executable := "app.exe"; arguments := Some "--mode=fast";
     workingDirectory := None |}.

Definition doc_pdf : AppLaunchConfig :=
  {| executable := "doc.pdf"; arguments := None; workingDirectory := None |}.

Definition go_script : ScriptInformation :=
  {| scriptPath := "go.ps1"; scriptArguments := None;
     runInVirtualEnvironment := None |}.

(** The key is present with the text [false] as its value. *)
Definition go_script_venv_false : ScriptInformation :=
  {| scriptPath := "go.ps1"; scriptArguments := None;
     runInVirtualEnvironment := Some "false" |}.


Definition end_script : ScriptInformation :=
  {| scriptPath := "end.ps1"; scriptArguments := None;
     runInVirtualEnvironment := None |}.

Definition elevated_monitor : MonitorConfig :=
  {| monitor_executable := "m.exe"; monitor_arguments := "-x";
     asadmin := Some true; wait := Some true |}.

Definition always (r : option Z) {A : Type} (_ : A) : option Z := r.

(** Everything launches; PowerShell is installed; both scripts are on disk. *)
Definition healthy (app : AppLaunchConfig)
    (startScript endScript : option ScriptInformation) : Host :=
  host (Some app) startScript endScript None
    ERROR_SUCCESS (ERROR_SUCCESS, 1) ["/pkg/go.ps1"; "/pkg/end.ps1"]
    (always None) (always None).

(** The registry key opens but holds no [Install] value. *)
Definition marker_absent : Host :=
  host (Some app_exe) None None None
    ERROR_SUCCESS (ERROR_FILE_NOT_FOUND, 0) [] (always None) (always None).

(** The registry key opens and [Install] is zero. *)
Definition marker_zero (endScript : option ScriptInformation) : Host :=
  host (Some app_exe) None endScript None
    ERROR_SUCCESS (ERROR_SUCCESS, 0) ["/pkg/end.ps1"]
    (always None) (always None).

(** The starting script is configured but not on disk. *)
Definition script_missing : Host :=
  host (Some app_exe) (Some go_script) None None
    ERROR_SUCCESS (ERROR_SUCCESS, 1) [] (always None) (always None).

(** Every [CreateProcessW] is refused with error 5; the ending script is
    configured but not on disk. *)
Definition app_and_end_fail : Host :=
  host (Some app_exe) None (Some end_script) None
    ERROR_SUCCESS (ERROR_SUCCESS, 1) [] (always (Some 5)) (always None).

(** The elevation prompt of the monitor is declined (ERROR_CANCELLED). *)
Definition elevation_declined (endScript : option ScriptInformation) : Host :=
  host (Some app_exe) None endScript (Some elevated_monitor)
    ERROR_SUCCESS (ERROR_SUCCESS, 1) ["/pkg/end.ps1"]
    (always None) (always (Some 1223)).

(** PowerShell is not on the host: the marker is zero and a launch by
    command line alone is refused with error 2.  The ending script is
    configured and on disk. *)
Definition no_powershell : Host :=
  host (Some app_exe) None (Some end_script) None
    ERROR_SUCCESS (ERROR_SUCCESS, 0) ["/pkg/end.ps1"]
    (fun execInfo => match ApplicationName execInfo with
                     | Some _ => None
                     | None => Some ERROR_FILE_NOT_FOUND
                     end)
    (always None).

(** The command lines of the spec's two naming examples. *)
Definition quoted_line : string := String dquote ("a b" ++ String dquote " x y").
Definition plain_line : string := "ab x y".

Definition by_command_line (commandLine : string) : ExecutionInformation :=
  {| ApplicationName := None; CommandLine := commandLine;
     CurrentDirectory := None |}.

End Demo.

Module DemoMore.

(** A host on which every file exists and every call succeeds, with all the
    stages configured. *)
Definition all_well : Host :=
  {| PSFQueryCurrentAppLaunchConfig := Some Demo.app_exe;
     PSFQueryPackageRootPath := "/pkg";
     PSFQueryStartScriptInfo := Some Demo.go_script;
     PSFQueryEndScriptInfo := Some Demo.end_script;
     PSFQueryAppMonitorConfig :=
       Some {| monitor_executable := "m.exe"; monitor_arguments := "-x";
               asadmin := None; wait := None |};
     path_append := Demo.join;
     path_filename := Demo.filename;
     Print := errorMessage;
     narrow := Some;
     RegCreateKeyExW := fun _ _ => ERROR_SUCCESS;
     RegQueryValueExW := fun _ _ => (ERROR_SUCCESS, 1);
     exists_ := fun _ _ => true;
     InitializeProcThreadAttributeList := fun _ => None;
     UpdateProcThreadAttribute := fun _ _ _ => None;
     CreateProcessW := fun _ _ _ => None;
     WaitForSingleObject := fun _ => (WAIT_OBJECT_0, 0);
     ShellExecuteEx := fun _ _ => None |}.


Definition key_refused : Host :=
  Demo.host (Some Demo.app_exe) None None None
    (-5) (ERROR_SUCCESS, 1) [] (Demo.always None) (Demo.always None).

(** A monitor that is not elevated fails to start; no ending script. *)
Definition monitor_fails : Host :=
  Demo.host (Some Demo.app_exe) None None
    (Some {| monitor_executable := "m.exe"; monitor_arguments := "-x";
             asadmin := Some false; wait := None |})
    ERROR_SUCCESS (ERROR_SUCCESS, 1) [] (Demo.always (Some 5)) (Demo.always None).


(** Every [CreateProcessW] is refused with an error number above 2^31; the
    ending script is configured but not on disk. *)
Definition refused_high : Host :=
  Demo.host (Some Demo.app_exe) None (Some Demo.end_script) None
    ERROR_SUCCESS (ERROR_SUCCESS, 1) []
    (Demo.always (Some 0x80000006)) (Demo.always None).

(** The application starts; the ending script's launch is refused. *)
Definition end_fails : Host :=
  Demo.host (Some Demo.app_exe) None (Some Demo.end_script) None
    ERROR_SUCCESS (ERROR_SUCCESS, 1) ["/pkg/end.ps1"]
    (fun execInfo => match ApplicationName execInfo with
                     | Some _ => None
                     | None => Some 5
                     end)
    (Demo.always None).

(** The host [h] with another conversion of wide strings. *)
Definition with_narrow (h : Host) (f : string -> option string) : Host :=
  {| PSFQueryCurrentAppLaunchConfig := PSFQueryCurrentAppLaunchConfig h;
     PSFQueryPackageRootPath := PSFQueryPackageRootPath h;
     PSFQueryStartScriptInfo := PSFQueryStartScriptInfo h;
     PSFQueryEndScriptInfo := PSFQueryEndScriptInfo h;
     PSFQueryAppMonitorConfig := PSFQueryAppMonitorConfig h;
     path_append := path_append h;
     path_filename := path_filename h;
     Print := Print h;
     narrow := f;
     RegCreateKeyExW := RegCreateKeyExW h;
     RegQueryValueExW := RegQueryValueExW h;
     exists_ := exists_ h;
     InitializeProcThreadAttributeList := InitializeProcThreadAttributeList h;
     UpdateProcThreadAttribute := UpdateProcThreadAttribute h;
     CreateProcessW := CreateProcessW h;
     WaitForSingleObject := WaitForSingleObject h;
     ShellExecuteEx := ShellExecuteEx h |}.

(** A locale in which the name [s] has no multibyte form. *)
Definition all_but (s : string) (a : string) : option string :=
  if String.eqb a s then None else Some a.

(** Every call succeeds, but the monitor's name cannot be converted. *)
Definition monitor_unnamed : Host := with_narrow all_well (all_but "m.exe").

(** A document as application, whose path cannot be converted. *)
Definition document_unnamed : Host :=
  with_narrow (Demo.healthy Demo.doc_pdf None (Some Demo.end_script))
    (all_but "/pkg/doc.pdf").

End DemoMore.

Module DemoText.

(** [n] copies of a character. *)
Fixpoint replicate (n : nat) (c : ascii) : string :=
  match n with
  | O => EmptyString
  | S n' => String c (replicate n' c)
  end.

(** A text longer than the first buffer of [Log]. *)
Definition long_text : string := replicate 300 "x".

(** The startup information of a launch without attribute list in show
    mode 1. *)
Definition plain_startup : STARTUPINFOEXW :=
  {| dwFlags := STARTF_USESHOWWINDOW; wShowWindow := 1; lpAttributeList := None |}.

End DemoText.
(** * Facts about the string operations *)

Section StringFacts.

Lemma size_nonneg s : 0 <= size s.
Proof. unfold size; lia. Qed.

Lemma size_String c s : size (String c s) = size s + 1.
Proof. unfold size; cbn [String.length]; lia. Qed.

Lemma length_take_until ch s :
  (String.length (take_until ch s) <= String.length s)%nat.
Proof.
  induction s as [|c s IH]; cbn; [lia|].
  destruct (Ascii.eqb c ch); cbn; lia.
Qed.

Lemma substring_take_until ch s :
  substring 0 (String.length (take_until ch s)) s = take_until ch s.
Proof.
  induction s as [|c s IH]; cbn; [reflexivity|].
  destruct (Ascii.eqb c ch); cbn; [reflexivity|].
  now rewrite IH.
Qed.

Lemma substring_whole s : substring 0 (String.length s) s = s.
Proof. induction s as [|c s IH]; cbn; [reflexivity|now rewrite IH]. Qed.

(** What [find_from] returns, in terms of [take_until]. *)
Lemma find_from_take_until ch s i :
  (find_from ch s i = npos /\ take_until ch s = s)
  \/ find_from ch s i = i + Z.of_nat (String.length (take_until ch s)).
Proof.
  revert i; induction s as [|c s IH]; intros i; cbn.
  - left; split; reflexivity.
  - destruct (Ascii.eqb c ch); [right; cbn; lia|].
    destruct (IH (i + 1)) as [[Hn Ht]|Hk].
    + left; split; [assumption|now rewrite Ht].
    + right; rewrite Hk; cbn [String.length]; lia.
Qed.

(** [substr] from the start with the count that [find] gives. *)
Lemma substring_find_from ch s i :
  0 <= i -> i + size s <= max_size ->
  substring 0 (Z.to_nat (Z.min (size_t_sub (find_from ch s i) i) (size s))) s
  = take_until ch s.
Proof.
  intros Hi Hmax.
  pose proof (length_take_until ch s) as Hle.
  unfold size, max_size, size_t_sub in *.
  destruct (find_from_take_until ch s i) as [[Hn Ht]|Hk].
  - rewrite Hn, Ht; unfold npos.
    rewrite Z.mod_small by lia.
    rewrite Z.min_r by lia.
    rewrite Nat2Z.id. apply substring_whole.
  - rewrite Hk.
    replace (i + Z.of_nat (String.length (take_until ch s)) - i)
      with (Z.of_nat (String.length (take_until ch s))) by lia.
    rewrite Z.mod_small by lia.
    rewrite Z.min_l by lia.
    rewrite Nat2Z.id. apply substring_take_until.
Qed.

Lemma substring_drop n m s :
  (String.length s <= n + m)%nat -> substring n m s = drop n s.
Proof.
  revert n m; induction s as [|c s IH]; intros n m H.
  - destruct n, m; reflexivity.
  - destruct n as [|n].
    + destruct m as [|m]; cbn in H; [lia|].
      cbn. f_equal. rewrite (IH 0%nat m) by (cbn; lia). reflexivity.
    + cbn. apply IH. cbn in H. lia.
Qed.


Lemma drop_app p t : drop (String.length p) (p ++ t) = t.
Proof. induction p as [|c p IH]; cbn; [now destruct t|assumption]. Qed.

Lemma length_app p t :
  String.length (p ++ t) = (String.length p + String.length t)%nat.
Proof. induction p as [|c p IH]; cbn; [reflexivity|now rewrite IH]. Qed.

Lemma length_drop n s : String.length (drop n s) = (String.length s - n)%nat.
Proof.
  revert n; induction s as [|c s IH]; intros [|n]; cbn; try reflexivity.
  apply IH.
Qed.




(** The arithmetic of [applicationNameForError] computes the spec's token. *)
Lemma applicationNameForError_spec commandLine :
  size commandLine <= max_size ->
  applicationNameForError commandLine = quote_aware_name_spec commandLine.
Proof.
  intros Hmax. unfold applicationNameForError, quote_aware_name_spec.
  destruct commandLine as [|c rest].
  - reflexivity.
  - rewrite size_String in Hmax. pose proof (size_nonneg rest).
    unfold at_; cbn [String.get].
    destruct (Ascii.eqb c dquote) eqn:Hc.
    + unfold substr, find. rewrite size_String.
      change (Z.to_nat 1) with 1%nat. cbn [drop substring].
      replace (size rest + 1 - 1) with (size rest) by lia.
      apply (substring_find_from dquote rest 1); lia.
    + unfold substr, find. change (Z.to_nat 0) with 0%nat. cbn [drop].
      rewrite Z.sub_0_r.
      pose proof (substring_find_from space (String c rest) 0) as Hs.
      unfold size_t_sub in Hs. rewrite Z.sub_0_r in Hs.
      destruct (find_from_take_until space (String c rest) 0) as [[Hn _]|Hk].
      * rewrite Hn in *. rewrite Z.mod_small in Hs by (unfold npos; lia).
        apply Hs; rewrite ?size_String; lia.
      * pose proof (length_take_until space (String c rest)) as Hl.
        rewrite Hk in *. rewrite Z.mod_small in Hs.
        -- apply Hs; rewrite ?size_String; lia.
        -- rewrite size_String in *. unfold size, max_size in *.
           cbn [String.length] in *. lia.
Qed.

End StringFacts.

(** * The exit code as an [int] *)

Section ExitCode.

(** A number below 2^31 is returned as it is. *)
Lemma int_of_DWORD_small n : 0 <= n < 2 ^ 31 -> int_of_DWORD n = n.
Proof.
  intros Hn. unfold int_of_DWORD. cbv zeta.
  rewrite Z.mod_small by lia.
  destruct (Z.ltb_spec n (2 ^ 31)); lia.
Qed.

(** The [int] has the 32 bits of the [DWORD]. *)
Lemma int_of_DWORD_bits n : int_of_DWORD n mod 2 ^ 32 = n mod 2 ^ 32.
Proof.
  unfold int_of_DWORD. cbv zeta.
  destruct (Z.ltb_spec (n mod 2 ^ 32) (2 ^ 31)).
  - apply Z.mod_mod. lia.
  - replace (n mod 2 ^ 32 - 2 ^ 32) with (n mod 2 ^ 32 + (-1) * 2 ^ 32) by lia.
    rewrite Z.mod_add by lia. apply Z.mod_mod. lia.
Qed.

End ExitCode.

Section TraceFacts.

Lemma since_app (w d : Trace) : since w (w ++ d)%list = d.
Proof.
  unfold since. induction w as [|ev w IH]; cbn; [reflexivity|assumption].
Qed.

Lemma cut_emit w ev : cut (emit w ev) = cut_step (cut w) ev.
Proof. unfold cut, emit. now rewrite fold_left_app. Qed.

Lemma cut_step_calls st d :
  os_calls d = true ->
  fold_left cut_step d st = (fst st, (snd st ++ d)%list).
Proof.
  revert st; induction d as [|ev d IH]; intros [g p] H; cbn.
  - now rewrite app_nil_r.
  - cbn in H. apply andb_true_iff in H as [Hev Hd].
    rewrite IH by assumption.
    destruct ev; cbn in *; try discriminate;
      now rewrite <- app_assoc.
Qed.

Lemma cut_app_calls w d :
  os_calls d = true ->
  cut (w ++ d)%list = (fst (cut w), (snd (cut w) ++ d)%list).
Proof.
  intros H. unfold cut. rewrite fold_left_app. now apply cut_step_calls.
Qed.

Lemma reports_emit w ev :
  reports (emit w ev)
  = (reports w ++ match ev with EvPSFReportError t => [t] | _ => [] end)%list.
Proof.
  unfold reports, emit. rewrite flat_map_app. cbn. now rewrite app_nil_r.
Qed.

Lemma reports_calls d : os_calls d = true -> reports d = [].
Proof.
  unfold reports, os_calls.
  induction d as [|ev d IH]; cbn; [reflexivity|].
  intros H. apply andb_true_iff in H as [Hev Hd].
  rewrite (IH Hd). destruct ev; cbn in *; try discriminate; reflexivity.
Qed.

Lemma reports_app_calls w d :
  os_calls d = true -> reports (w ++ d)%list = reports w.
Proof.
  intros H. pose proof (reports_calls d H) as Hd.
  unfold reports in *. rewrite flat_map_app, Hd. apply app_nil_r.
Qed.

Lemma os_calls_app d1 d2 :
  os_calls (d1 ++ d2)%list = os_calls d1 && os_calls d2.
Proof. apply forallb_app. Qed.

End TraceFacts.

(** * What each function adds to the history *)

Section Runs.

Variable h : Host.

(** One run of [StartProcess]: at most the two attribute calls, then one
    [CreateProcessW], then at most one wait. *)
Lemma StartProcess_run execInfo cmdShow flag w :
  exists attrs si r waits,
    snd (StartProcess h execInfo cmdShow flag w)
    = (w ++ attrs ++ EvCreateProcessW execInfo true EXTENDED_STARTUPINFO_PRESENT si r :: waits)%list
    /\ os_calls attrs = true /\ launches attrs = []
    /\ os_calls waits = true /\ launches waits = []
    /\ (flag = false -> attrs = [])
    /\ match lpAttributeList si with Some _ => true | None => false end = flag
    /\ wShowWindow si = WORD_of_int cmdShow
    /\ (forall err, r = Some err ->
          waits = [] /\
          fst (StartProcess h execInfo cmdShow flag w)
          = MkError ("ERROR: Failed to create a process for "
                     ++ match ApplicationName execInfo with
                        | Some name => name
                        | None => applicationNameForError (CommandLine execInfo)
                        end ++ " ") err)
    /\ (r = None -> exists x, waits = [EvWaitForSingleObject INFINITE x])
    /\ (flag = true ->
        exists q i u,
          attrs = [EvInitializeProcThreadAttributeList false q; EvHeapAlloc;
                   EvInitializeProcThreadAttributeList true i;
                   EvUpdateProcThreadAttribute
                     PROC_THREAD_ATTRIBUTE_DESKTOP_APP_POLICY
                     PROCESS_CREATION_DESKTOP_APP_BREAKAWAY_DISABLE_PROCESS_TREE u]).
Proof.
  unfold StartProcess.
  destruct flag.
  - match goal with
    | |- context [CreateProcessW h ?w0 execInfo ?si0] =>
        set (w1 := w0); set (si := si0);
        destruct (CreateProcessW h w1 execInfo si) as [err|] eqn:Hc
    end.
    + eexists [_; _; _; _], si, (Some err), [].
      destruct (ApplicationName execInfo) eqn:Ha; cbn;
        unfold w1, emit; rewrite <- !app_assoc; cbn;
        repeat split; try reflexivity; try discriminate; try congruence;
        do 3 eexists; reflexivity.
    + destruct (WaitForSingleObject h
                  (emit w1 (EvCreateProcessW execInfo true
                              EXTENDED_STARTUPINFO_PRESENT si None)))
        as [waitResult lastError] eqn:Hw.
      eexists [_; _; _; _], si, None, [EvWaitForSingleObject INFINITE waitResult].
      destruct (waitResult =? WAIT_OBJECT_0); cbn;
        unfold w1, emit; rewrite <- !app_assoc; cbn;
        repeat split; try reflexivity; try discriminate; eauto;
        do 3 eexists; reflexivity.
  - match goal with
    | |- context [CreateProcessW h w execInfo ?si0] =>
        set (si := si0);
        destruct (CreateProcessW h w execInfo si) as [err|] eqn:Hc
    end.
    + eexists [], si, (Some err), [].
      destruct (ApplicationName execInfo) eqn:Ha; cbn;
        unfold emit; cbn;
        repeat split; try reflexivity; try discriminate; try congruence;
        do 3 eexists; reflexivity.
    + destruct (WaitForSingleObject h
                  (emit w (EvCreateProcessW execInfo true
                             EXTENDED_STARTUPINFO_PRESENT si None)))
        as [waitResult lastError] eqn:Hw.
      eexists [], si, None, [EvWaitForSingleObject INFINITE waitResult].
      destruct (waitResult =? WAIT_OBJECT_0); cbn;
        unfold emit; rewrite <- ?app_assoc; cbn;
        repeat split; try reflexivity; try discriminate; eauto;
        do 3 eexists; reflexivity.
Qed.

Lemma launches_nil_In (l : Trace) ev :
  launches l = [] -> In ev l -> is_launch ev = false.
Proof.
  unfold launches. intros Hl Hin.
  destruct (is_launch ev) eqn:Hev; [|reflexivity].
  assert (Hf : In ev (filter is_launch l)) by (apply filter_In; auto).
  rewrite Hl in Hf. destruct Hf.
Qed.

Lemma StartProcess_calls execInfo cmdShow flag w :
  exists d, snd (StartProcess h execInfo cmdShow flag w) = (w ++ d)%list
            /\ os_calls d = true.
Proof.
  destruct (StartProcess_run execInfo cmdShow flag w)
    as (attrs & si & r & waits & Hs & Ha & _ & Hw & _).
  exists (attrs ++ EvCreateProcessW execInfo true EXTENDED_STARTUPINFO_PRESENT si r :: waits)%list.
  split; [assumption|].
  rewrite os_calls_app, Ha. cbn. exact Hw.
Qed.

Lemma append_assoc (a b c : string) : (a ++ b) ++ c = a ++ b ++ c.
Proof. induction a as [|x a IH]; cbn; [reflexivity|now rewrite IH]. Qed.

Lemma append_nil_r (a : string) : a ++ EmptyString = a.
Proof. induction a as [|x a IH]; cbn; [reflexivity|now rewrite IH]. Qed.

(** [RunScript] by the answer of the existence test. *)
Lemma RunScript_unfold spec packageRoot dirStr cmdShow w :
  RunScript h spec packageRoot dirStr cmdShow w
  = let p := script_full_path h spec packageRoot dirStr in
    if exists_ h w p then
      StartProcess h (script_request h spec packageRoot dirStr) cmdShow
        (venv_setting spec) (emit w (EvFileExists p true))
    else
      (MkError ("The PowerShell file " ++ p ++ " can't be found")
         ERROR_FILE_NOT_FOUND,
       emit w (EvFileExists p false)).
Proof.
  unfold RunScript, script_full_path, script_request, script_command_line,
    venv_setting.
  cbv zeta.
  destruct (exists_ h w _).
  - destruct (runInVirtualEnvironment spec), (scriptArguments spec); cbn;
      rewrite ?append_assoc, ?append_nil_r; reflexivity.
  - cbn. rewrite ?append_assoc. reflexivity.
Qed.

Lemma RunScript_calls spec packageRoot dirStr cmdShow w :
  exists d, snd (RunScript h spec packageRoot dirStr cmdShow w) = (w ++ d)%list
            /\ os_calls d = true.
Proof.
  rewrite RunScript_unfold. cbv zeta.
  destruct (exists_ h w _).
  - destruct (StartProcess_calls (script_request h spec packageRoot dirStr)
                cmdShow (venv_setting spec)
                (emit w (EvFileExists
                           (script_full_path h spec packageRoot dirStr) true)))
      as (d & Hd & Hc).
    exists (EvFileExists (script_full_path h spec packageRoot dirStr) true :: d).
    rewrite Hd. unfold emit. rewrite <- app_assoc. split; [reflexivity|exact Hc].
  - eexists [_]. split; reflexivity.
Qed.

Lemma LaunchMonitorInBackground_calls packageRoot exe args wait_ asAdmin
    cmdShow dirStr w :
  exists d,
    snd (LaunchMonitorInBackground h packageRoot exe args wait_ asAdmin
           cmdShow dirStr w) = (w ++ d)%list
    /\ os_calls d = true.
Proof.
  unfold LaunchMonitorInBackground. cbv zeta.
  destruct asAdmin.
  - destruct (ShellExecuteEx h w _) eqn:Hs.
    + eexists [_]. split; reflexivity.
    + destruct wait_.
      * eexists [_; _; _]. unfold emit. rewrite <- !app_assoc. split; reflexivity.
      * eexists [_; _; _]. unfold emit. rewrite <- !app_assoc. split; reflexivity.
  - match goal with
    | |- context [StartProcess h ?ei cmdShow false w] =>
        destruct (StartProcess_calls ei cmdShow false w) as (d & Hd & Hc);
        destruct (StartProcess h ei cmdShow false w) as [e w'] eqn:E
    end.
    cbn in *. exists d. split; assumption.
Qed.

(** The first line of a run is always written. *)
Lemma Log_line_banner :
  Log_line h (String tab "In Launcher_main()") [] [] = Some launcher_start.
Proof. reflexivity. Qed.

(** A line is written exactly when [Log] returns for it. *)
Lemma Log_line_written fmt args w :
  Log_line h fmt args w
  = match Log (vformat (narrow h) fmt args) with
    | Some text => Some (w ++ [EvOutputDebugStringA text])%list
    | None => None
    end.
Proof. reflexivity. Qed.

(** One run of [GetAndLaunchMonitor]: the process ends when the monitor's
    line cannot be written, before any other call; otherwise the line is
    followed by the calls of [LaunchMonitorInBackground]. *)
Lemma GetAndLaunchMonitor_calls monitor packageRoot cmdShow dirStr w :
  exists d,
    snd (GetAndLaunchMonitor h monitor packageRoot cmdShow dirStr w)
    = (w ++ d)%list
    /\ os_calls d = true
    /\ match fst (GetAndLaunchMonitor h monitor packageRoot cmdShow dirStr w) with
       | Some _ => monitor_line h monitor <> None
       | None => monitor_line h monitor = None /\ d = []
       end.
Proof.
  unfold GetAndLaunchMonitor, monitor_line. cbv zeta.
  rewrite Log_line_written.
  destruct (Log _) as [text|].
  - match goal with
    | |- context [LaunchMonitorInBackground h ?a ?b ?c ?d ?e ?f ?g ?w0] =>
        destruct (LaunchMonitorInBackground_calls a b c d e f g w0)
          as (dd & Hd & Hc);
        destruct (LaunchMonitorInBackground h a b c d e f g w0) as [e' w'] eqn:E
    end.
    cbn [fst snd] in *. subst w'. exists (EvOutputDebugStringA text :: dd).
    rewrite <- app_assoc. repeat split; [exact Hc|discriminate].
  - exists []. cbn [fst snd]. rewrite app_nil_r. repeat split.
Qed.

(** One run of [StartWithShellExecute]: the process ends when the line of
    the activation cannot be written, before any call; otherwise the line is
    followed by a single shell activation of the configured file. *)
Lemma StartWithShellExecute_run packageRoot exeName exeArgString dirStr cmdShow w :
  match fst (StartWithShellExecute h packageRoot exeName exeArgString dirStr
               cmdShow w) with
  | Some _ =>
      exists text info r,
        snd (StartWithShellExecute h packageRoot exeName exeArgString dirStr
               cmdShow w)
        = (w ++ [EvOutputDebugStringA text; EvShellExecuteEx info r])%list
        /\ shell_line h packageRoot exeName exeArgString = Some text
        /\ lpFile info = path_append h packageRoot exeName
        /\ lpParameters info = exeArgString
        /\ lpVerb info = None
  | None =>
      snd (StartWithShellExecute h packageRoot exeName exeArgString dirStr
             cmdShow w) = w
      /\ shell_line h packageRoot exeName exeArgString = None
  end.
Proof.
  unfold StartWithShellExecute, shell_line. cbv zeta.
  rewrite Log_line_written. cbn [lpFile lpParameters].
  destruct (Log _) as [text|].
  - destruct (ShellExecuteEx h _ _) eqn:Hs; cbn [fst snd];
      do 3 eexists; unfold emit; rewrite <- app_assoc;
      (split; [reflexivity|]); cbn; auto.
  - split; reflexivity.
Qed.

Lemma CheckIfPowershellIsInstalled_calls b w :
  exists d,
    snd (CheckIfPowershellIsInstalled h b w) = (w ++ d)%list
    /\ os_calls d = true /\ launches d = [].
Proof.
  unfold CheckIfPowershellIsInstalled. cbv zeta.
  destruct (RegCreateKeyExW h w _ =? ERROR_SUCCESS); cbn [negb].
  - destruct (RegQueryValueExW h _ _) as [getResult value] eqn:Hq.
    destruct (getResult =? ERROR_SUCCESS); cbn [negb snd];
      eexists [_; _]; unfold emit; rewrite <- !app_assoc;
      repeat split; reflexivity.
  - eexists [_]. repeat split; reflexivity.
Qed.

End Runs.

(** A launch without the attribute block: one [CreateProcessW], then at most
    one wait. *)
Lemma StartProcess_direct (h : Host) execInfo cmdShow w :
  exists si r waits,
    snd (StartProcess h execInfo cmdShow false w)
    = (w ++ EvCreateProcessW execInfo true EXTENDED_STARTUPINFO_PRESENT si r :: waits)%list
    /\ os_calls (EvCreateProcessW execInfo true EXTENDED_STARTUPINFO_PRESENT si r :: waits) = true
    /\ launches waits = []
    /\ lpAttributeList si = None.
Proof.
  destruct (StartProcess_run h execInfo cmdShow false w)
    as (attrs & si & r & waits & Hs & _ & _ & Hw & Hlw & Hnil & Hattr & _).
  rewrite (Hnil eq_refl) in Hs. cbn [app] in Hs.
  exists si, r, waits. repeat split; try assumption.
  destruct (lpAttributeList si); [discriminate|reflexivity].
Qed.

Lemma StartWithShellExecute_shell (h : Host) packageRoot exeName exeArgString
    dirStr cmdShow w :
  match fst (StartWithShellExecute h packageRoot exeName exeArgString dirStr
               cmdShow w) with
  | Some _ =>
      exists text info r,
        snd (StartWithShellExecute h packageRoot exeName exeArgString dirStr
               cmdShow w)
        = (w ++ [EvOutputDebugStringA text; EvShellExecuteEx info r])%list
        /\ os_calls [EvOutputDebugStringA text; EvShellExecuteEx info r] = true
        /\ shell_line h packageRoot exeName exeArgString = Some text
        /\ lpFile info = path_append h packageRoot exeName
        /\ lpParameters info = exeArgString
        /\ lpVerb info = None
  | None =>
      snd (StartWithShellExecute h packageRoot exeName exeArgString dirStr
             cmdShow w) = w
      /\ shell_line h packageRoot exeName exeArgString = None
  end.
Proof.
  pose proof (StartWithShellExecute_run h packageRoot exeName exeArgString dirStr
                cmdShow w) as H.
  destruct (fst (StartWithShellExecute h packageRoot exeName exeArgString dirStr
                   cmdShow w)); [|exact H].
  destruct H as (text & info & r & Hs & Hl & Hf & Hp & Hv).
  exists text, info, r. repeat split; assumption.
Qed.

(** * Running [launcher_main] symbolically *)

Lemma cut_nil : cut [] = ([], []).
Proof. reflexivity. Qed.

Lemma cut_calls d : os_calls d = true -> cut d = ([], d).
Proof. intros H. apply (cut_app_calls [] d H). Qed.

Lemma cut_start : cut launcher_start = ([], launcher_start).
Proof. reflexivity. Qed.

Lemma reports_start : reports launcher_start = [].
Proof. reflexivity. Qed.

(** One step of the run: the next call is replaced by its outcome and the
    calls it adds to the history, the next test by its two answers. *)
Ltac run_call lemma call :=
  let d := fresh "d" in
  let Hd := fresh "Hd" in
  let Hc := fresh "Hc" in
  let E := fresh "E" in
  destruct lemma as (d & Hd & Hc);
  destruct call eqn:E; cbn [snd] in Hd; subst.

Ltac run_step :=
  match goal with
  | |- context [Log_line ?h _ [] []] => rewrite (Log_line_banner h)
  | |- context [CheckIfPowershellIsInstalled ?h ?b ?w] =>
      let d := fresh "d" in
      let Hd := fresh "Hd" in
      let Hc := fresh "Hc" in
      let E := fresh "E" in
      destruct (CheckIfPowershellIsInstalled_calls h b w) as (d & Hd & Hc & _);
      destruct (CheckIfPowershellIsInstalled h b w) as [[? ?] ?] eqn:E;
      cbn [snd] in Hd; subst
  | |- context [RunScript ?h ?a ?b ?c ?d0 ?w] =>
      run_call (RunScript_calls h a b c d0 w) (RunScript h a b c d0 w)
  | |- context [GetAndLaunchMonitor ?h ?a ?b ?c ?d0 ?w] =>
      let d := fresh "d" in
      let Hd := fresh "Hd" in
      let Hc := fresh "Hc" in
      let Hline := fresh "Hline" in
      let E := fresh "E" in
      destruct (GetAndLaunchMonitor_calls h a b c d0 w) as (d & Hd & Hc & Hline);
      destruct (GetAndLaunchMonitor h a b c d0 w) as [[?|] ?] eqn:E;
      cbn [fst snd] in Hd, Hline; subst
  | |- context [StartProcess ?h ?a ?b false ?w] =>
      let si := fresh "si" in
      let r := fresh "r" in
      let waits := fresh "waits" in
      let Hd := fresh "Hd" in
      let Hc := fresh "Hc" in
      let Hw := fresh "Hw" in
      let Hattr := fresh "Hattr" in
      let E := fresh "E" in
      destruct (StartProcess_direct h a b w)
        as (si & r & waits & Hd & Hc & Hw & Hattr);
      destruct (StartProcess h a b false w) eqn:E; cbn [snd] in Hd; subst
  | |- context [StartWithShellExecute ?h ?a ?b ?c ?d0 ?e ?w] =>
      let text := fresh "text" in
      let info := fresh "info" in
      let r := fresh "r" in
      let H := fresh "H" in
      let Hd := fresh "Hd" in
      let Hc := fresh "Hc" in
      let Hline := fresh "Hshell" in
      let Hf := fresh "Hfile" in
      let Hp := fresh "Hparams" in
      let Hv := fresh "Hverb" in
      let E := fresh "E" in
      pose proof (StartWithShellExecute_shell h a b c d0 e w) as H;
      destruct (StartWithShellExecute h a b c d0 e w) as [[?|] ?] eqn:E;
      cbn [fst snd] in H;
      [ destruct H as (text & info & r & Hd & Hc & Hline & Hf & Hp & Hv)
      | destruct H as (Hd & Hline) ];
      subst
  | |- context [PSFQueryCurrentAppLaunchConfig ?h] =>
      destruct (PSFQueryCurrentAppLaunchConfig h) eqn:?
  | |- context [PSFQueryStartScriptInfo ?h] =>
      destruct (PSFQueryStartScriptInfo h) eqn:?
  | |- context [PSFQueryAppMonitorConfig ?h] =>
      destruct (PSFQueryAppMonitorConfig h) eqn:?
  | |- context [PSFQueryEndScriptInfo ?h] =>
      destruct (PSFQueryEndScriptInfo h) eqn:?
  | |- context [check_suffix_if ?a ?b] => destruct (check_suffix_if a b) eqn:?
  | |- context [negb ?b] => destruct b eqn:?; cbn [negb]
  | |- context [if isThereAnError ?e then _ else _] =>
      destruct (isThereAnError e) eqn:?
  end.

Ltac run_simpl :=
  cbv beta iota zeta;
  unfold IsThereAnError, GetErrorNumber;
  cbn [AddExeName isThereAnError errorNumber].

Lemma Some_eq {A : Type} (a b : A) : Some a = Some b -> a = b.
Proof. congruence. Qed.

(** The exit code and the history of a branch take the place of the names
    given to the result of the run. *)
Ltac name_run :=
  let H := fresh "Hrun" in
  intros H; apply pair_equal_spec in H; destruct H as [<- <-].

(** The history of a finished run, cut into its stages. *)
Ltac read_history :=
  unfold stage_groups, pending, PSFReportError;
  repeat (rewrite ?cut_emit, ?reports_emit;
          rewrite ?cut_app_calls, ?reports_app_calls by assumption;
          rewrite ?cut_nil, ?cut_start, ?reports_start;
          rewrite ?cut_calls, ?reports_calls by assumption;
          cbn [cut_step fst snd]);
  cbn [app].

(** Which stage of a cut history a hypothesis speaks of. *)
Ltac pick_stage :=
  repeat match goal with
         | H : _ \/ _ |- _ => destruct H
         | H : False |- _ => destruct H
         | H : In _ [] |- _ => destruct H
         | H : (_, _, _) = (_, _, _) |- _ => injection H; clear H; intros; subst
         | H : (_, _, _) = ?g |- _ => is_var g; subst g
         | H : ?s = ?s' :> Stage |- _ => discriminate H
         end;
  cbn [AddExeName isThereAnError errorNumber] in *.


(** * The process launcher *)

Section ProcessLauncher.

Variable h : Host.

(** C9.  When [CreateProcessW] refuses the launch, the error record that
    [StartProcess] returns names the program: the application name when one
    was given, and otherwise the token of the command line read with regard
    to quotes, that is the text between the first pair of quotes when the
    line starts with a quote and the text up to the first space when it
    does not. *)
Theorem StartProcess_failure_names_program execInfo cmdShow flag w si err :
  size (CommandLine execInfo) <= max_size ->
  In (EvCreateProcessW execInfo true EXTENDED_STARTUPINFO_PRESENT si (Some err))
     (since w (snd (StartProcess h execInfo cmdShow flag w))) ->
  fst (StartProcess h execInfo cmdShow flag w)
  = MkError ("ERROR: Failed to create a process for "
             ++ match ApplicationName execInfo with
                | Some name => name
                | None => quote_aware_name_spec (CommandLine execInfo)
                end ++ " ") err.
Proof.
  intros Hmax Hin.
  destruct (StartProcess_run h execInfo cmdShow flag w)
    as (attrs & si' & r & waits & Hs & _ & Hla & _ & Hlw & _ & _ & _ & Herr & _).
  rewrite Hs, since_app in Hin.
  apply in_app_or in Hin as [Hin|[Hin|Hin]].
  - apply (launches_nil_In _ _ Hla) in Hin. discriminate.
  - injection Hin as _ Hr. destruct (Herr err Hr) as [_ ->].
    now rewrite applicationNameForError_spec.
  - apply (launches_nil_In _ _ Hlw) in Hin. discriminate.
Qed.

End ProcessLauncher.

(** Between the first pair of quotes. *)
Lemma quote_aware_name_spec_quoted name rest :
  take_until dquote name = name ->
  quote_aware_name_spec (String dquote (name ++ String dquote rest)) = name.
Proof.
  intros Hn.
  transitivity (take_until dquote (name ++ String dquote rest)); [reflexivity|].
  rewrite <- Hn at 2. clear Hn.
  induction name as [|c name IH]; cbn [append take_until].
  - reflexivity.
  - destruct (Ascii.eqb c dquote); [reflexivity|now rewrite IH].
Qed.

(** Up to the first space. *)
Lemma quote_aware_name_spec_plain c name rest :
  Ascii.eqb c dquote = false ->
  take_until space (String c name) = String c name ->
  quote_aware_name_spec (String c name ++ String space rest) = String c name.
Proof.
  intros Hc Hn. unfold quote_aware_name_spec. cbn [append]. rewrite Hc.
  change (String c (name ++ String space rest))
    with (String c name ++ String space rest).
  revert Hn. generalize (String c name). clear c name Hc.
  intros s Hn. rewrite <- Hn at 2. clear Hn.
  induction s as [|x s IH]; cbn [append take_until].
  - now rewrite Ascii.eqb_refl.
  - destruct (Ascii.eqb x space); [reflexivity|now rewrite IH].
Qed.

(** The spec's two examples, on a host that refuses every launch. *)
Lemma StartProcess_failure_names_program_witness :
  errorMessage
    (fst (StartProcess Demo.app_and_end_fail
            (Demo.by_command_line Demo.quoted_line) 1 false []))
  = "ERROR: Failed to create a process for a b "
  /\ errorMessage
       (fst (StartProcess Demo.app_and_end_fail
               (Demo.by_command_line Demo.plain_line) 1 false []))
     = "ERROR: Failed to create a process for ab ".
Proof.
  split.
  - rewrite (StartProcess_failure_names_program Demo.app_and_end_fail
               (Demo.by_command_line Demo.quoted_line) 1 false []
               {| dwFlags := STARTF_USESHOWWINDOW; wShowWindow := 1;
                  lpAttributeList := None |} 5).
    + reflexivity.
    + vm_compute. discriminate.
    + vm_compute. left. reflexivity.
  - rewrite (StartProcess_failure_names_program Demo.app_and_end_fail
               (Demo.by_command_line Demo.plain_line) 1 false []
               {| dwFlags := STARTF_USESHOWWINDOW; wShowWindow := 1;
                  lpAttributeList := None |} 5).
    + reflexivity.
    + vm_compute. discriminate.
    + vm_compute. left. reflexivity.
Defined.

(** * The script stage *)

Section ScriptStage.

Variable h : Host.

(** C10.  When the script file exists, the flag that [RunScript] passes to
    [StartProcess] is set whenever the key [runInVirtualEnvironment] is in
    the script's configuration, whatever text it holds, and cleared only
    when the key is absent. *)
Theorem RunScript_flag_is_key_presence spec packageRoot dirStr cmdShow w :
  exists_ h w (script_full_path h spec packageRoot dirStr) = true ->
  RunScript h spec packageRoot dirStr cmdShow w
  = StartProcess h (script_request h spec packageRoot dirStr) cmdShow
      (match runInVirtualEnvironment spec with
       | Some _ => true
       | None => false
       end)
      (emit w (EvFileExists (script_full_path h spec packageRoot dirStr) true)).
Proof.
  intros Hex. rewrite RunScript_unfold. cbv zeta. rewrite Hex. reflexivity.
Qed.


(** C7, as the code has it.  When the script file does not exist,
    [RunScript] returns the file-not-found code with a message that names
    the file, and starts no child. *)
Theorem RunScript_missing_file spec packageRoot dirStr cmdShow w :
  exists_ h w (script_full_path h spec packageRoot dirStr) = false ->
  fst (RunScript h spec packageRoot dirStr cmdShow w)
  = MkError ("The PowerShell file "
             ++ script_full_path h spec packageRoot dirStr
             ++ " can't be found") ERROR_FILE_NOT_FOUND
  /\ since w (snd (RunScript h spec packageRoot dirStr cmdShow w))
     = [EvFileExists (script_full_path h spec packageRoot dirStr) false]
  /\ launches (since w (snd (RunScript h spec packageRoot dirStr cmdShow w))) = [].
Proof.
  intros Hex. rewrite RunScript_unfold. cbv zeta. rewrite Hex.
  cbn [fst snd]. unfold emit. rewrite since_app. repeat split.
Qed.

End ScriptStage.

Lemma RunScript_flag_is_key_presence_witness :
  Demo.mem "/pkg/go.ps1" ["/pkg/go.ps1"; "/pkg/end.ps1"] = true
  /\ RunScript (Demo.healthy Demo.app_exe None None) Demo.go_script_venv_false
       "/pkg" (Some EmptyString) 1 []
     = StartProcess (Demo.healthy Demo.app_exe None None)
         (script_request (Demo.healthy Demo.app_exe None None)
            Demo.go_script_venv_false "/pkg" (Some EmptyString))
         1 true [EvFileExists "/pkg/go.ps1" true].
Proof.
  split; [reflexivity|].
  apply (RunScript_flag_is_key_presence (Demo.healthy Demo.app_exe None None)
           Demo.go_script_venv_false "/pkg" (Some EmptyString) 1 []).
  reflexivity.
Defined.



Lemma RunScript_missing_file_witness :
  fst (RunScript Demo.script_missing Demo.go_script "/pkg" (Some EmptyString) 1 [])
  = MkError "The PowerShell file /pkg/go.ps1 can't be found" ERROR_FILE_NOT_FOUND
  /\ since [] (snd (RunScript Demo.script_missing Demo.go_script "/pkg"
                      (Some EmptyString) 1 []))
     = [EvFileExists "/pkg/go.ps1" false]
  /\ launches (since [] (snd (RunScript Demo.script_missing Demo.go_script "/pkg"
                                (Some EmptyString) 1 []))) = [].
Proof.
  apply (RunScript_missing_file Demo.script_missing Demo.go_script "/pkg"
           (Some EmptyString) 1 []).
  reflexivity.
Defined.

(** The message of the missing script is not the one the claim quotes. *)
Lemma RunScript_missing_file_message_counterexample :
  exists_ Demo.script_missing []
    (script_full_path Demo.script_missing Demo.go_script "/pkg" (Some EmptyString))
  = false
  /\ errorMessage
       (fst (RunScript Demo.script_missing Demo.go_script "/pkg"
               (Some EmptyString) 1 []))
     <> "The script file /pkg/go.ps1 can't be found".
Proof. split; [reflexivity|]. vm_compute. discriminate. Qed.

(** * The orchestrator *)

Section Orchestrator.

Variable h : Host.

(** C2.  When the monitor or the application returned an error and the
    ending script returned one too, the host reporter is called once, with
    the earlier error (printed after the launcher has set its executable
    tag), and the exit code is the number of that earlier error: the
    number is a [DWORD] and [launcher_main] returns it as an [int], which
    has the same 32 bits. *)
Theorem earlier_error_takes_precedence args cmdShow s e1 c1 e2 c2 :
  In (s, e1, c1) (stage_groups (snd (launcher_main h args cmdShow))) ->
  s = StMonitor \/ s = StApplication ->
  IsThereAnError e1 = true ->
  In (StEndScript, e2, c2) (stage_groups (snd (launcher_main h args cmdShow))) ->
  IsThereAnError e2 = true ->
  reports (snd (launcher_main h args cmdShow))
  = [Print h (AddExeName e1 "PowerShell.exe")]
  /\ exists code,
      fst (launcher_main h args cmdShow) = Some code
      /\ code = int_of_DWORD (GetErrorNumber e1)
      /\ code mod 2 ^ 32 = GetErrorNumber e1 mod 2 ^ 32.
Proof.
  destruct (launcher_main h args cmdShow) as [code tr] eqn:Hrun.
  revert Hrun. unfold launcher_main. run_simpl.
  repeat (run_step; run_simpl; try congruence).
  all: name_run; cbn [fst snd]; read_history.
  all: cbn [In]; intros H1 Hs He1 H2 He2; pick_stage; try congruence.
  all: split; [reflexivity|].
  all: eexists; split; [reflexivity|]; split; [reflexivity|].
  all: apply int_of_DWORD_bits.
Qed.



End Orchestrator.

(** The launch of the application is refused with the error number
    2147483654 (0x80000006), which the launcher returns as an [int]; the
    ending script is missing. *)
Lemma earlier_error_takes_precedence_witness :
  reports (snd (launcher_main DemoMore.refused_high "extra" 1))
  = ["ERROR: Failed to create a process for /pkg/app.exe "]
  /\ exists code,
      fst (launcher_main DemoMore.refused_high "extra" 1) = Some code
      /\ code = -2147483642
      /\ code mod 2 ^ 32 = 2147483654 mod 2 ^ 32.
Proof.
  apply (earlier_error_takes_precedence DemoMore.refused_high "extra" 1
           StApplication
           (AddExeName
              (MkError "ERROR: Failed to create a process for /pkg/app.exe "
                 2147483654)
              "app.exe")
           [EvCreateProcessW
              (application_request DemoMore.refused_high Demo.app_exe "extra")
              true EXTENDED_STARTUPINFO_PRESENT
              {| dwFlags := STARTF_USESHOWWINDOW; wShowWindow := 1;
                 lpAttributeList := None |} (Some 2147483654)]
           (MkError "The PowerShell file /pkg/end.ps1 can't be found"
              ERROR_FILE_NOT_FOUND)
           [EvFileExists "/pkg/end.ps1" false]).
  - vm_compute. right. left. reflexivity.
  - right. reflexivity.
  - reflexivity.
  - vm_compute. right. right. left. reflexivity.
  - reflexivity.
Defined.



(** * The environment probe *)

Section Probe.

Variable h : Host.

(** C3, as the code has it.  The probe succeeds exactly when the key opens
    and the install marker can be read; it then answers whether the marker
    is one, so a marker of zero gives [false].  When the key does not open,
    and also when the key opens but the marker cannot be read (as when it
    is absent), the probe returns an error and leaves the caller's boolean
    as it was. *)
Theorem CheckIfPowershellIsInstalled_outcomes (b : bool) (w : Trace) :
  (IsThereAnError (fst (fst (CheckIfPowershellIsInstalled h b w))) = false
   <-> key_opens h w /\ fst (marker_query h w) = ERROR_SUCCESS)
  /\ (IsThereAnError (fst (fst (CheckIfPowershellIsInstalled h b w))) = false ->
      snd (fst (CheckIfPowershellIsInstalled h b w))
      = (snd (marker_query h w) =? 1))
  /\ (IsThereAnError (fst (fst (CheckIfPowershellIsInstalled h b w))) = true ->
      snd (fst (CheckIfPowershellIsInstalled h b w)) = b).
Proof.
  unfold CheckIfPowershellIsInstalled, key_opens, marker_query, install_key.
  cbv zeta.
  destruct (Z.eqb_spec (RegCreateKeyExW h w "SOFTWARE\Microsoft\PowerShell\1")
              ERROR_SUCCESS) as [Hk|Hk]; cbn [negb].
  - rewrite Hk.
    destruct (RegQueryValueExW h _ "Install") as [getResult value] eqn:Hq.
    cbn [fst snd].
    destruct (Z.eqb_spec getResult ERROR_SUCCESS) as [Hg|Hg]; cbn [negb fst snd].
    + repeat split; try assumption; try discriminate.
      intros _. now destruct (value =? 1).
    + repeat split; try discriminate; try reflexivity.
      intros [_ Hx]. contradiction.
  - cbn [fst snd]. repeat split; try discriminate; try reflexivity.
    intros [Hx _]. contradiction.
Qed.

End Probe.

(** The key opens and holds no install marker: the probe returns an error,
    not a successful [false]. *)
Lemma probe_absent_marker_counterexample :
  key_opens Demo.marker_absent []
  /\ fst (marker_query Demo.marker_absent []) = ERROR_FILE_NOT_FOUND
  /\ fst (fst (CheckIfPowershellIsInstalled Demo.marker_absent false []))
     = MkError "Error with querying the key to see if PowerShell is installed. "
         ERROR_FILE_NOT_FOUND
  /\ fst (CheckIfPowershellIsInstalled Demo.marker_absent false [])
     <> (NoError, false).
Proof. repeat split. discriminate. Qed.

(** A marker of zero is a successful [false]. *)
Example probe_zero_marker :
  fst (CheckIfPowershellIsInstalled (Demo.marker_zero None) true [])
  = (NoError, false).
Proof. reflexivity. Qed.

(** * Where the code leaves the documented behaviour *)

(** C5.  The elevated branch of [LaunchMonitorInBackground] never returns an
    error: the record built when [ShellExecuteEx] fails is dropped.  On a host
    where the elevation is declined the launcher starts the application and
    the ending script, reports nothing and exits with 0. *)
Theorem elevated_monitor_failure_is_dropped :
  (forall (h : Host) packageRoot exe args wait_ cmdShow dirStr w,
      fst (LaunchMonitorInBackground h packageRoot exe args wait_ true
             cmdShow dirStr w) = NoError)
  /\ fst (launcher_main (Demo.elevation_declined (Some Demo.end_script)) "extra" 1)
     = Some 0
  /\ reports
       (snd (launcher_main (Demo.elevation_declined (Some Demo.end_script))
               "extra" 1)) = []
  /\ map (fun g => (fst (fst g), IsThereAnError (snd (fst g))))
       (stage_groups
          (snd (launcher_main (Demo.elevation_declined (Some Demo.end_script))
                  "extra" 1)))
     = [(StProbe, false); (StMonitor, false); (StApplication, false);
        (StEndScript, false)]
  /\ In (EvShellExecuteEx
           {| fMask := SEE_MASK_NOCLOSEPROCESS; lpVerb := Some "runas";
              lpFile := String dquote ("/pkg/m.exe" ++ String dquote EmptyString);
              lpParameters := "-x"; lpDirectory := None; nShow := 1 |}
           (Some 1223))
        (snd (launcher_main (Demo.elevation_declined (Some Demo.end_script))
                "extra" 1)).
Proof.
  split.
  - intros h packageRoot exe args wait_ cmdShow dirStr w.
    unfold LaunchMonitorInBackground. cbv zeta.
    destruct (ShellExecuteEx h w _); [reflexivity|].
    destruct wait_; reflexivity.
  - repeat split. vm_compute. do 6 right. left. reflexivity.
Qed.

(** C6.  With only an ending script configured and PowerShell not installed,
    the launcher does not stop at the probe's answer: it starts the
    application, then tries to start PowerShell for the ending script, and
    exits with the error of that launch. *)
Theorem end_script_runs_without_interpreter :
  PSFQueryStartScriptInfo Demo.no_powershell = None
  /\ PSFQueryEndScriptInfo Demo.no_powershell = Some Demo.end_script
  /\ fst (CheckIfPowershellIsInstalled Demo.no_powershell false launcher_start)
     = (NoError, false)
  /\ fst (launcher_main Demo.no_powershell "extra" 1) = Some ERROR_FILE_NOT_FOUND
  /\ fst (launcher_main Demo.no_powershell "extra" 1)
     <> Some E_APPLICATION_NOT_REGISTERED
  /\ launches (snd (launcher_main Demo.no_powershell "extra" 1))
     = [EvCreateProcessW
          (application_request Demo.no_powershell Demo.app_exe "extra")
          true EXTENDED_STARTUPINFO_PRESENT
          {| dwFlags := STARTF_USESHOWWINDOW; wShowWindow := 1;
             lpAttributeList := None |} None;
        EvCreateProcessW
          (script_request Demo.no_powershell Demo.end_script "/pkg"
             (Some EmptyString))
          true EXTENDED_STARTUPINFO_PRESENT
          {| dwFlags := STARTF_USESHOWWINDOW; wShowWindow := 1;
             lpAttributeList := None |} (Some ERROR_FILE_NOT_FOUND)].
Proof. repeat split. vm_compute. discriminate. Qed.

(** The check that C6 asks for is there when a starting script is configured. *)
Lemma start_script_needs_interpreter (h : Host) args cmdShow appConfig startScript :
  PSFQueryCurrentAppLaunchConfig h = Some appConfig ->
  PSFQueryStartScriptInfo h = Some startScript ->
  fst (fst (CheckIfPowershellIsInstalled h false launcher_start)) = NoError ->
  snd (fst (CheckIfPowershellIsInstalled h false launcher_start)) = false ->
  fst (launcher_main h args cmdShow) = Some E_APPLICATION_NOT_REGISTERED
  /\ launches (snd (launcher_main h args cmdShow)) = [].
Proof.
  intros Hcfg Hstart Hok Hno.
  unfold launcher_main. rewrite Log_line_banner, Hcfg, Hstart. cbv zeta.
  destruct (CheckIfPowershellIsInstalled_calls h false launcher_start)
    as (d & Hd & Hc & Hl).
  destruct (CheckIfPowershellIsInstalled h false launcher_start)
    as [[e inst] w'] eqn:E.
  cbn [fst snd] in *. subst. cbn [IsThereAnError NoError isThereAnError negb fst snd].
  split; [reflexivity|].
  unfold PSFReportError, emit, launches in *.
  rewrite !filter_app, Hl. reflexivity.
Qed.

(** * Further properties of the orchestrator *)

(** A run of [launcher_main] from its definition to the histories of its
    branches, with the result named [code] and [tr]. *)
Ltac run_launcher :=
  unfold launcher_main, throw_win32; run_simpl;
  repeat (run_step; run_simpl; try congruence);
  name_run; cbn [fst snd]; read_history;
  cbn [reports flat_map app].

Section OrchestratorRuns.

Variable h : Host.

(** X1.  Whatever the host answers, one run of [launcher_main] calls the
    host reporter at most once. *)
Theorem launcher_main_reports_at_most_once args cmdShow :
  (List.length (reports (snd (launcher_main h args cmdShow))) <= 1)%nat.
Proof.
  destruct (launcher_main h args cmdShow) as [code tr] eqn:Hrun.
  revert Hrun. run_launcher.
  all: cbn [List.length]; lia.
Qed.

(** X2.  A run that returns an exit code other than 0 has made exactly one
    report: the launcher never fails silently with a non-zero code. *)
Theorem launcher_main_nonzero_exit_is_reported args cmdShow code :
  fst (launcher_main h args cmdShow) = Some code ->
  code <> 0 ->
  exists text, reports (snd (launcher_main h args cmdShow)) = [text].
Proof.
  destruct (launcher_main h args cmdShow) as [c tr] eqn:Hrun.
  revert Hrun. run_launcher.
  all: intros Hcode Hne; try discriminate Hcode; try (eexists; reflexivity).
  all: apply Some_eq in Hcode; contradiction Hne; symmetry; exact Hcode.
Qed.

(** X3.  The stages of a run return in pipeline order, probe, starting
    script, monitor, application, ending script, and none returns twice. *)
Theorem launcher_main_stage_order args cmdShow :
  StronglySorted lt
    (map stage_rank (stages (snd (launcher_main h args cmdShow)))).
Proof.
  unfold stages.
  destruct (launcher_main h args cmdShow) as [code tr] eqn:Hrun.
  revert Hrun. run_launcher.
  all: cbn [map fst stage_rank].
  all: repeat (constructor; try lia).
Qed.

(** X4.  When the probe returns an error, the run ends there: no other stage
    runs, no child is launched, the probe's error is the one report and its
    number, returned as an [int], is the exit code. *)
Theorem probe_failure_stops_the_run args cmdShow e calls :
  In (StProbe, e, calls) (stage_groups (snd (launcher_main h args cmdShow))) ->
  IsThereAnError e = true ->
  stages (snd (launcher_main h args cmdShow)) = [StProbe]
  /\ launches (snd (launcher_main h args cmdShow)) = []
  /\ reports (snd (launcher_main h args cmdShow)) = [Print h e]
  /\ fst (launcher_main h args cmdShow) = Some (int_of_DWORD (GetErrorNumber e)).
Proof.
  unfold stages.
  destruct (CheckIfPowershellIsInstalled_calls h false launcher_start)
    as (d & Hd & Hc & Hl).
  destruct (launcher_main h args cmdShow) as [code tr] eqn:Hrun.
  revert Hrun. unfold launcher_main, throw_win32. rewrite Log_line_banner.
  destruct (CheckIfPowershellIsInstalled h false launcher_start)
    as [[e0 inst] w0] eqn:E.
  cbn [snd] in Hd. subst w0. run_simpl.
  repeat (run_step; run_simpl; try congruence).
  all: name_run; cbn [fst snd]; read_history;
    cbn [reports flat_map app].
  all: cbn [In]; intros Hin He; pick_stage; try congruence.
  all: unfold launches, emit, launcher_start in *; rewrite ?filter_app;
    cbn [filter is_launch app]; rewrite Hl.
  all: repeat split.
Qed.

(** X5.  When the starting script returns an error, the run ends there: the
    monitor, the application and the ending script do not run, the script's
    error is the one report and its number, returned as an [int], is the
    exit code. *)
Theorem start_script_failure_stops_the_run args cmdShow e calls :
  In (StStartScript, e, calls)
     (stage_groups (snd (launcher_main h args cmdShow))) ->
  IsThereAnError e = true ->
  stages (snd (launcher_main h args cmdShow)) = [StProbe; StStartScript]
  /\ reports (snd (launcher_main h args cmdShow)) = [Print h e]
  /\ fst (launcher_main h args cmdShow) = Some (int_of_DWORD (GetErrorNumber e)).
Proof.
  unfold stages.
  destruct (launcher_main h args cmdShow) as [code tr] eqn:Hrun.
  revert Hrun. run_launcher.
  all: cbn [In]; intros Hin He; pick_stage; try congruence.
  all: repeat split.
Qed.

(** X6.  Without an ending script the outcome of the monitor and of the
    application is lost: whatever they return, nothing is reported and a run
    that returns has the exit code 0.  The run does return once the
    application has returned, or the monitor has returned an error (the
    application is skipped then). *)
Theorem no_end_script_no_report args cmdShow s e calls :
  PSFQueryEndScriptInfo h = None ->
  In (s, e, calls) (stage_groups (snd (launcher_main h args cmdShow))) ->
  s = StMonitor \/ s = StApplication ->
  reports (snd (launcher_main h args cmdShow)) = []
  /\ (forall code, fst (launcher_main h args cmdShow) = Some code -> code = 0)
  /\ (s = StApplication \/ IsThereAnError e = true ->
      fst (launcher_main h args cmdShow) = Some 0).
Proof.
  intros Hend.
  destruct (launcher_main h args cmdShow) as [c tr] eqn:Hrun.
  revert Hrun. unfold launcher_main. rewrite Hend. run_launcher.
  all: cbn [In]; intros Hin Hs; pick_stage; try congruence.
  all: split; [reflexivity|split].
  all: try (intros code Hcode; congruence).
  all: try (intros _; reflexivity).
  all: intros Hor; pick_stage; congruence.
Qed.

(** X7.  When the monitor and the application returned without error and
    the ending script returns an error, that error is the one report and its
    number, returned as an [int], is the exit code. *)
Theorem end_script_error_is_reported args cmdShow e2 c2 :
  In (StEndScript, e2, c2) (stage_groups (snd (launcher_main h args cmdShow))) ->
  IsThereAnError e2 = true ->
  (forall s e c,
      In (s, e, c) (stage_groups (snd (launcher_main h args cmdShow))) ->
      s = StMonitor \/ s = StApplication -> IsThereAnError e = false) ->
  reports (snd (launcher_main h args cmdShow)) = [Print h e2]
  /\ fst (launcher_main h args cmdShow) = Some (int_of_DWORD (GetErrorNumber e2)).
Proof.
  destruct (launcher_main h args cmdShow) as [code tr] eqn:Hrun.
  revert Hrun. run_launcher.
  all: cbn [In]; intros Hin He2 Hall; pick_stage; try congruence.
  all: try (split; reflexivity).
  all: exfalso.
  all: try (pose proof (Hall StMonitor _ _ ltac:(eauto 8) (or_introl eq_refl)) as Hm;
            cbn [IsThereAnError AddExeName isThereAnError] in Hm; congruence).
  all: pose proof (Hall StApplication _ _ ltac:(eauto 8) (or_intror eq_refl)) as Ha;
    cbn [IsThereAnError AddExeName isThereAnError] in Ha; congruence.
Qed.

(** X8.  When the configured executable does not end in [.exe], the
    launcher's own arguments play no part in the run: two runs that differ
    only in them make the same calls and end with the same exit code. *)
Theorem shell_activation_drops_launcher_arguments args1 args2 cmdShow appConfig :
  PSFQueryCurrentAppLaunchConfig h = Some appConfig ->
  check_suffix_if (executable appConfig) ".exe" = false ->
  launcher_main h args1 cmdShow = launcher_main h args2 cmdShow.
Proof.
  intros Hcfg Hsfx. unfold launcher_main. rewrite Log_line_banner, Hcfg.
  cbv zeta. rewrite Hsfx. reflexivity.
Qed.

End OrchestratorRuns.

(** * Every direct launch of a run *)

Section DirectLaunches.

Variable h : Host.

Lemma no_launch_ok cmdShow dir (l : Trace) :
  launches l = [] -> forallb (direct_launch_ok cmdShow dir) l = true.
Proof.
  intros Hl. apply forallb_forall. intros ev Hin.
  apply (launches_nil_In _ _ Hl) in Hin.
  destruct ev; try reflexivity. discriminate Hin.
Qed.

Lemma starts_with_app p s :
  starts_with p s = true -> exists rest, s = p ++ rest.
Proof.
  revert s; induction p as [|a p IH]; intros s H.
  - exists s. reflexivity.
  - destruct s as [|b s]; [discriminate|]. cbn in H.
    apply andb_true_iff in H as [Hab Hp]. apply Ascii.eqb_eq in Hab. subst b.
    destruct (IH s Hp) as (rest & ->). exists rest. reflexivity.
Qed.

Lemma StartProcess_ok execInfo cmdShow flag dir w :
  CurrentDirectory execInfo = Some dir ->
  match ApplicationName execInfo with
  | Some _ => true
  | None => starts_with "Powershell.exe -file " (CommandLine execInfo)
  end = true ->
  exists d,
    snd (StartProcess h execInfo cmdShow flag w) = (w ++ d)%list
    /\ forallb (direct_launch_ok cmdShow dir) d = true.
Proof.
  intros Hdir Hname.
  assert (Hok : forall attrs r,
             direct_launch_ok cmdShow dir
               (EvCreateProcessW execInfo true EXTENDED_STARTUPINFO_PRESENT
                  {| dwFlags := STARTF_USESHOWWINDOW;
                     wShowWindow := WORD_of_int cmdShow;
                     lpAttributeList := attrs |} r) = true).
  { intros attrs r. unfold direct_launch_ok. cbn [dwFlags wShowWindow].
    now rewrite Hdir, Hname, String.eqb_refl, !Z.eqb_refl. }
  unfold StartProcess. cbv zeta.
  destruct flag.
  - match goal with
    | |- context [CreateProcessW h ?w0 execInfo ?si0] =>
        set (w1 := w0);
        destruct (CreateProcessW h w1 execInfo si0) as [err|] eqn:Hc
    end.
    + eexists [_; _; _; _; _].
      destruct (ApplicationName execInfo); cbn [snd];
        unfold w1, emit; rewrite <- !app_assoc; cbn [app];
        (split; [reflexivity|]); cbn [forallb]; rewrite Hok; reflexivity.
    + match goal with
      | |- context [WaitForSingleObject h ?w0] =>
          destruct (WaitForSingleObject h w0) as [waitResult lastError]
      end.
      eexists [_; _; _; _; _; _].
      destruct (waitResult =? WAIT_OBJECT_0); cbn [snd];
        unfold w1, emit; rewrite <- !app_assoc; cbn [app];
        (split; [reflexivity|]); cbn [forallb]; rewrite Hok; reflexivity.
  - match goal with
    | |- context [CreateProcessW h w execInfo ?si0] =>
        destruct (CreateProcessW h w execInfo si0) as [err|] eqn:Hc
    end.
    + eexists [_].
      destruct (ApplicationName execInfo); cbn [snd];
        unfold emit; (split; [reflexivity|]); cbn [forallb];
        rewrite Hok; reflexivity.
    + match goal with
      | |- context [WaitForSingleObject h ?w0] =>
          destruct (WaitForSingleObject h w0) as [waitResult lastError]
      end.
      eexists [_; _].
      destruct (waitResult =? WAIT_OBJECT_0); cbn [snd];
        unfold emit; rewrite <- !app_assoc; cbn [app];
        (split; [reflexivity|]); cbn [forallb];
        rewrite Hok; reflexivity.
Qed.

Lemma RunScript_ok spec packageRoot dirStr cmdShow w :
  exists d,
    snd (RunScript h spec packageRoot dirStr cmdShow w) = (w ++ d)%list
    /\ forallb (direct_launch_ok cmdShow (path_append h packageRoot (deref dirStr))) d
       = true.
Proof.
  rewrite RunScript_unfold. cbv zeta.
  destruct (exists_ h w _).
  - destruct (StartProcess_ok (script_request h spec packageRoot dirStr) cmdShow
                (venv_setting spec) (path_append h packageRoot (deref dirStr))
                (emit w (EvFileExists
                           (script_full_path h spec packageRoot dirStr) true))
                eq_refl eq_refl) as (d & Hd & Hok).
    exists (EvFileExists (script_full_path h spec packageRoot dirStr) true :: d).
    rewrite Hd. unfold emit. rewrite <- app_assoc. split; [reflexivity|exact Hok].
  - eexists [_]. split; reflexivity.
Qed.

Lemma GetAndLaunchMonitor_ok monitor packageRoot cmdShow dirStr w :
  exists d,
    snd (GetAndLaunchMonitor h monitor packageRoot cmdShow dirStr w) = (w ++ d)%list
    /\ forallb (direct_launch_ok cmdShow (path_append h packageRoot (deref dirStr))) d
       = true.
Proof.
  unfold GetAndLaunchMonitor, LaunchMonitorInBackground. cbv zeta.
  rewrite Log_line_written.
  destruct (Log _) as [text|];
    [|exists []; cbn [snd]; rewrite app_nil_r; split; reflexivity].
  destruct (match asadmin monitor with Some b => b | None => false end).
  - destruct (ShellExecuteEx h _ _).
    + eexists [_; _]. cbn [snd]. unfold emit. rewrite <- !app_assoc.
      split; reflexivity.
    + destruct (match wait monitor with Some b => b | None => false end);
        eexists [_; _; _; _]; cbn [snd]; unfold emit; rewrite <- !app_assoc;
        split; reflexivity.
  - match goal with
    | |- context [StartProcess h ?ei cmdShow false ?w0] =>
        destruct (StartProcess_ok ei cmdShow false
                    (path_append h packageRoot (deref dirStr)) w0 eq_refl eq_refl)
          as (d & Hd & Hok);
        destruct (StartProcess h ei cmdShow false w0) as [e w']
    end.
    cbn [snd] in *. subst w'. exists (EvOutputDebugStringA text :: d).
    rewrite <- app_assoc. split; [reflexivity|exact Hok].
Qed.

Lemma StartWithShellExecute_ok packageRoot exeName exeArgString dirStr cmdShow
    dir w :
  exists d,
    snd (StartWithShellExecute h packageRoot exeName exeArgString dirStr cmdShow w)
    = (w ++ d)%list
    /\ forallb (direct_launch_ok cmdShow dir) d = true.
Proof.
  pose proof (StartWithShellExecute_run h packageRoot exeName exeArgString dirStr
                cmdShow w) as H.
  destruct (fst (StartWithShellExecute h packageRoot exeName exeArgString dirStr
                   cmdShow w)).
  - destruct H as (text & info & r & -> & _). eexists. split; reflexivity.
  - destruct H as [-> _]. exists []. rewrite app_nil_r. split; reflexivity.
Qed.

Ltac ok_call lemma call :=
  let d := fresh "d" in
  let Hd := fresh "Hd" in
  let Hok := fresh "Hok" in
  destruct lemma as (d & Hd & Hok);
  destruct call; cbn [snd] in Hd; subst.

Ltac ok_call_or_end lemma call :=
  let d := fresh "d" in
  let Hd := fresh "Hd" in
  let Hok := fresh "Hok" in
  destruct lemma as (d & Hd & Hok);
  destruct call as [[?|] ?]; cbn [snd] in Hd; subst.

Ltac ok_step :=
  match goal with
  | |- context [Log_line ?h _ [] []] => rewrite (Log_line_banner h)
  | |- context [CheckIfPowershellIsInstalled ?h ?b ?w] =>
      let d := fresh "d" in
      let Hd := fresh "Hd" in
      let Hl := fresh "Hl" in
      destruct (CheckIfPowershellIsInstalled_calls h b w) as (d & Hd & _ & Hl);
      destruct (CheckIfPowershellIsInstalled h b w) as [[? ?] ?];
      cbn [snd] in Hd; subst
  | |- context [RunScript ?h ?a ?b ?c ?d0 ?w] =>
      ok_call (RunScript_ok a b c d0 w) (RunScript h a b c d0 w)
  | |- context [GetAndLaunchMonitor ?h ?a ?b ?c ?d0 ?w] =>
      ok_call_or_end (GetAndLaunchMonitor_ok a b c d0 w)
                     (GetAndLaunchMonitor h a b c d0 w)
  | |- context [StartProcess ?h ?a ?b false ?w] =>
      ok_call (StartProcess_ok a b false _ w eq_refl eq_refl)
              (StartProcess h a b false w)
  | |- context [StartWithShellExecute ?h ?a ?b ?c ?d0 ?e ?w] =>
      ok_call_or_end (StartWithShellExecute_ok a b c d0 e (path_append h a (deref d0)) w)
                     (StartWithShellExecute h a b c d0 e w)
  | |- context [PSFQueryStartScriptInfo ?h] =>
      destruct (PSFQueryStartScriptInfo h)
  | |- context [PSFQueryAppMonitorConfig ?h] =>
      destruct (PSFQueryAppMonitorConfig h)
  | |- context [PSFQueryEndScriptInfo ?h] =>
      destruct (PSFQueryEndScriptInfo h)
  | |- context [check_suffix_if ?a ?b] => destruct (check_suffix_if a b)
  | |- context [negb ?b] => destruct b; cbn [negb]
  | |- context [if isThereAnError ?e then _ else _] =>
      destruct (isThereAnError e)
  end.

(** Every [CreateProcessW] of a run satisfies [direct_launch_ok]. *)
Lemma launcher_main_direct_launches args cmdShow appConfig :
  PSFQueryCurrentAppLaunchConfig h = Some appConfig ->
  forallb (direct_launch_ok cmdShow
             (path_append h (PSFQueryPackageRootPath h)
                (deref (dirStr_of appConfig))))
    (snd (launcher_main h args cmdShow)) = true.
Proof.
  intros Hcfg. unfold launcher_main, dirStr_of. rewrite Hcfg. run_simpl.
  repeat (ok_step; run_simpl).
  all: cbn [snd]; unfold PSFReportError, emit, launcher_start.
  all: rewrite ?forallb_app; cbn [forallb direct_launch_ok andb].
  all: rewrite (no_launch_ok _ _ _ Hl).
  all: repeat match goal with
              | H : forallb _ _ = true |- _ => rewrite H; clear H
              end.
  all: reflexivity.
Qed.

(** X9.  Every [CreateProcessW] of a run, for a script, the monitor or the
    application, inherits the launcher's handles, announces the extended
    startup information and shows its window in the launcher's own show mode
    cut to 16 bits. *)
Theorem every_direct_launch_carries_show_mode args cmdShow appConfig
    execInfo inheritHandles creationFlags si r :
  PSFQueryCurrentAppLaunchConfig h = Some appConfig ->
  In (EvCreateProcessW execInfo inheritHandles creationFlags si r)
     (snd (launcher_main h args cmdShow)) ->
  inheritHandles = true
  /\ creationFlags = EXTENDED_STARTUPINFO_PRESENT
  /\ dwFlags si = STARTF_USESHOWWINDOW
  /\ wShowWindow si = cmdShow mod 2 ^ 16.
Proof.
  intros Hcfg Hin.
  pose proof (launcher_main_direct_launches args cmdShow appConfig Hcfg) as Hall.
  rewrite forallb_forall in Hall. specialize (Hall _ Hin).
  cbn [direct_launch_ok] in Hall.
  repeat (apply andb_true_iff in Hall as [Hall ?]).
  repeat split; try assumption; now apply Z.eqb_eq.
Qed.

(** X10.  Every [CreateProcessW] of a run starts its child in the package
    root joined with the configured working directory (the empty path when
    none is configured). *)
Theorem every_direct_launch_in_working_directory args cmdShow appConfig
    execInfo inheritHandles creationFlags si r :
  PSFQueryCurrentAppLaunchConfig h = Some appConfig ->
  In (EvCreateProcessW execInfo inheritHandles creationFlags si r)
     (snd (launcher_main h args cmdShow)) ->
  CurrentDirectory execInfo
  = Some (path_append h (PSFQueryPackageRootPath h)
            match workingDirectory appConfig with
            | Some d => d
            | None => EmptyString
            end).
Proof.
  intros Hcfg Hin.
  pose proof (launcher_main_direct_launches args cmdShow appConfig Hcfg) as Hall.
  rewrite forallb_forall in Hall. specialize (Hall _ Hin).
  cbn [direct_launch_ok] in Hall.
  repeat (apply andb_true_iff in Hall as [Hall ?]).
  destruct (CurrentDirectory execInfo) as [d|]; [|discriminate].
  match goal with H : String.eqb d _ = true |- _ => apply String.eqb_eq in H; subst d end.
  unfold dirStr_of. destruct (workingDirectory appConfig); reflexivity.
Qed.

(** X11.  The only launches of a run that give [CreateProcessW] no
    application name are those of the scripts: their command line starts
    with the PowerShell invocation. *)
Theorem launch_without_name_is_powershell args cmdShow appConfig
    execInfo inheritHandles creationFlags si r :
  PSFQueryCurrentAppLaunchConfig h = Some appConfig ->
  In (EvCreateProcessW execInfo inheritHandles creationFlags si r)
     (snd (launcher_main h args cmdShow)) ->
  ApplicationName execInfo = None ->
  exists rest, CommandLine execInfo = "Powershell.exe -file " ++ rest.
Proof.
  intros Hcfg Hin Hname.
  pose proof (launcher_main_direct_launches args cmdShow appConfig Hcfg) as Hall.
  rewrite forallb_forall in Hall. specialize (Hall _ Hin).
  cbn [direct_launch_ok] in Hall. rewrite Hname in Hall.
  repeat (apply andb_true_iff in Hall as [Hall ?]).
  now apply starts_with_app.
Qed.

End DirectLaunches.

(** * Further properties of the process launcher and of the stages *)

Section Stages.

Variable h : Host.

Lemma launches_app (a b : Trace) :
  launches (a ++ b)%list = (launches a ++ launches b)%list.
Proof. apply filter_app. Qed.

(** X12.  [StartProcess] calls [CreateProcessW] exactly once, also when the
    attribute calls before it fail, and it returns without error exactly when
    its last call is a wait that ended with [WAIT_OBJECT_0]. *)
Theorem StartProcess_outcome execInfo cmdShow flag w :
  (exists si r,
      launches (since w (snd (StartProcess h execInfo cmdShow flag w)))
      = [EvCreateProcessW execInfo true EXTENDED_STARTUPINFO_PRESENT si r])
  /\ (IsThereAnError (fst (StartProcess h execInfo cmdShow flag w)) = false
      <-> exists pre,
          snd (StartProcess h execInfo cmdShow flag w)
          = (pre ++ [EvWaitForSingleObject INFINITE WAIT_OBJECT_0])%list).
Proof.
  split.
  - destruct (StartProcess_run h execInfo cmdShow flag w)
      as (attrs & si & r & waits & Hs & _ & Hla & _ & Hlw & _).
    exists si, r. rewrite Hs, since_app, launches_app, Hla.
    cbn [app]. unfold launches in *. cbn [filter is_launch]. now rewrite Hlw.
  - unfold StartProcess. cbv zeta.
    destruct flag;
      match goal with
      | |- context [CreateProcessW h ?w0 execInfo ?si0] =>
          destruct (CreateProcessW h w0 execInfo si0) as [err|]
      end;
      try match goal with
        | |- context [WaitForSingleObject h ?w0] =>
            destruct (WaitForSingleObject h w0) as [waitResult lastError];
            destruct (Z.eqb_spec waitResult WAIT_OBJECT_0) as [->|Hne]
        end;
      try destruct (ApplicationName execInfo);
      cbn [fst snd IsThereAnError isThereAnError NoError MkError]; unfold emit;
      split; intros H; try discriminate H; try reflexivity;
      try (eexists; reflexivity);
      destruct H as (pre & Hpre); apply app_inj_tail in Hpre as [_ H'];
      try discriminate H'; injection H' as H'; contradiction.
Qed.

(** X13.  A monitor whose configuration has no [asadmin] key, or has it
    false, and whose line for the debugger can be written, is started by one
    [CreateProcessW] on the monitor's relative name, with the quoted full
    path and the arguments as command line, no attribute list, and never by
    a shell activation; the stage returns and its outcome is tagged with the
    monitor's executable. *)
Theorem monitor_not_elevated_by_default monitor packageRoot cmdShow dirStr w text :
  asadmin monitor <> Some true ->
  monitor_line h monitor = Some text ->
  (exists si r rest,
      since w (snd (GetAndLaunchMonitor h monitor packageRoot cmdShow dirStr w))
      = EvOutputDebugStringA text :: rest
      /\ launches rest
         = [EvCreateProcessW (monitor_request h monitor packageRoot dirStr)
              true EXTENDED_STARTUPINFO_PRESENT si r]
      /\ lpAttributeList si = None)
  /\ exists e,
      fst (GetAndLaunchMonitor h monitor packageRoot cmdShow dirStr w) = Some e
      /\ exeName e = Some (monitor_executable monitor).
Proof.
  intros Hna Hline.
  assert (Hfalse : match asadmin monitor with Some b => b | None => false end = false).
  { destruct (asadmin monitor) as [[|]|]; [contradiction Hna|..]; reflexivity. }
  unfold monitor_line in Hline.
  unfold GetAndLaunchMonitor, LaunchMonitorInBackground, monitor_request.
  cbv zeta. rewrite Log_line_written, Hline, Hfalse.
  match goal with
  | |- context [StartProcess h ?ei cmdShow false ?w0] =>
      destruct (StartProcess_direct h ei cmdShow w0)
        as (si & r & waits & Hd & _ & Hw & Hattr);
      destruct (StartProcess h ei cmdShow false w0) as [e w']
  end.
  cbn [fst snd] in *. subst w'. split; [|eexists; split; reflexivity].
  exists si, r. eexists. rewrite <- app_assoc, since_app. cbn [app].
  split; [reflexivity|].
  unfold launches in *. cbn [filter is_launch]. rewrite Hw.
  split; [|assumption]. f_equal. f_equal.
  cbn [ApplicationName CommandLine]. f_equal.
  now rewrite append_assoc.
Qed.

(** X14.  An elevated monitor whose line for the debugger can be written is
    started by one shell activation with the verb [runas] on the quoted full
    path, without a working directory and with show mode 1: neither the
    launcher's show mode nor its working directory reaches it, and
    [CreateProcessW] is not called.  The launcher sleeps its five seconds
    exactly when the activation succeeded and no wait was asked for. *)
Theorem monitor_elevated_activation monitor packageRoot cmdShow dirStr w text :
  asadmin monitor = Some true ->
  monitor_line h monitor = Some text ->
  exists info r,
    launches (since w (snd (GetAndLaunchMonitor h monitor packageRoot cmdShow
                              dirStr w)))
    = [EvShellExecuteEx info r]
    /\ lpVerb info = Some "runas"
    /\ lpFile info
       = String dquote (path_append h packageRoot (monitor_executable monitor))
         ++ String dquote EmptyString
    /\ lpParameters info = monitor_arguments monitor
    /\ lpDirectory info = None
    /\ nShow info = 1
    /\ Z.land (fMask info) SEE_MASK_NOCLOSEPROCESS = SEE_MASK_NOCLOSEPROCESS
    /\ (In (EvSleep 5000)
          (since w (snd (GetAndLaunchMonitor h monitor packageRoot cmdShow
                           dirStr w)))
        <-> r = None /\ wait monitor <> Some true).
Proof.
  intros Ha Hline. unfold monitor_line in Hline.
  unfold GetAndLaunchMonitor, LaunchMonitorInBackground. cbv zeta.
  rewrite Log_line_written, Hline, Ha.
  match goal with
  | |- context [ShellExecuteEx h ?w0 ?i] =>
      exists i; destruct (ShellExecuteEx h w0 i) as [err|]
  end.
  - exists (Some err). cbn [snd]. unfold emit. rewrite <- !app_assoc, since_app.
    do 6 (split; [reflexivity|]).
    split; [destruct (wait monitor) as [[|]|]; reflexivity|].
    split; [intros [Hin|[Hin|[]]]; discriminate Hin|intros [Hr _]; discriminate Hr].
  - exists None.
    destruct (wait monitor) as [[|]|]; cbn [snd]; unfold emit;
      rewrite <- !app_assoc, since_app; cbn [app];
      do 6 (split; [reflexivity|]); (split; [reflexivity|]); split.
    + intros [Hin|[Hin|[Hin|[Hin|[]]]]]; discriminate Hin.
    + intros [_ Hw]. contradiction Hw. reflexivity.
    + intros _. split; [reflexivity|discriminate].
    + intros _. right. right. right. left. reflexivity.
    + intros _. split; [reflexivity|discriminate].
    + intros _. right. right. right. left. reflexivity.
Qed.

End Stages.

(** * Further properties of the string helpers *)

Section Strings.

(** X15.  [check_suffix_if] looks at the last characters only: on a string
    cut into a front part and a back part as long as the suffix, the answer
    is the comparison of the back part with the suffix, whatever the front
    part is. *)
Theorem check_suffix_if_last_characters p t suffix :
  String.length t = String.length suffix ->
  size (p ++ t) <= max_size ->
  check_suffix_if (p ++ t) suffix = iwstring_eqb t suffix.
Proof.
  intros Hlen Hmax. unfold check_suffix_if, substr.
  unfold size, size_t_sub, max_size, npos in *.
  rewrite length_app in *.
  destruct (Z.leb_spec (Z.of_nat (String.length suffix))
              (Z.of_nat (String.length p + String.length t))) as [Hle|Hlt];
    [|lia].
  rewrite Z.mod_small by lia.
  rewrite substring_drop by (rewrite length_app; lia).
  replace (Z.to_nat _) with (String.length p) by lia.
  now rewrite drop_app.
Qed.

Lemma find_from_take_until_none ch s i :
  find_from ch (take_until ch s) i = npos.
Proof.
  revert i; induction s as [|c s IH]; intros i; cbn; [reflexivity|].
  destruct (Ascii.eqb c ch) eqn:Hc; cbn; [reflexivity|].
  rewrite Hc. apply IH.
Qed.

(** X16.  The name that [StartProcess] takes from a command line is never
    longer than the line and never holds the character that ends it: a
    search of the name for the quote (when the line starts with a quote) or
    for the space (when it does not) finds nothing. *)
Theorem applicationNameForError_has_no_delimiter commandLine :
  size commandLine <= max_size ->
  (String.length (applicationNameForError commandLine)
   <= String.length commandLine)%nat
  /\ find (applicationNameForError commandLine)
       (if Ascii.eqb (at_ commandLine 0) dquote then dquote else space) 0
     = npos.
Proof.
  intros Hmax. rewrite applicationNameForError_spec by assumption.
  unfold quote_aware_name_spec, find, at_. change (Z.to_nat 0) with 0%nat.
  destruct commandLine as [|c rest]; cbn [String.get drop].
  - split; [reflexivity|]. reflexivity.
  - destruct (Ascii.eqb c dquote) eqn:Hc.
    + split; [|apply find_from_take_until_none].
      pose proof (length_take_until dquote rest). cbn [String.length]. lia.
    + split; [apply length_take_until|apply find_from_take_until_none].
Qed.

(** X17.  A command line that opens a quote and never closes it gives the
    whole rest of the line as the name: the failed search returns [npos], and
    the count [npos - 1] is cut to what is left of the line. *)
Theorem applicationNameForError_unmatched_quote rest :
  size (String dquote rest) <= max_size ->
  find (String dquote rest) dquote 1 = npos ->
  applicationNameForError (String dquote rest) = rest.
Proof.
  intros Hmax Hfind. rewrite applicationNameForError_spec by assumption.
  unfold quote_aware_name_spec. rewrite Ascii.eqb_refl.
  unfold find in Hfind. change (Z.to_nat 1) with 1%nat in Hfind.
  cbn [drop] in Hfind.
  destruct (find_from_take_until dquote rest 1) as [[_ Ht]|Hk]; [exact Ht|].
  rewrite Hfind in Hk. pose proof (length_take_until dquote rest).
  rewrite size_String in Hmax. unfold size, max_size, npos in *. lia.
Qed.

End Strings.

Section StagesAgain.

Variable h : Host.

(** X18.  The error that the probe returns carries the registry status as a
    [DWORD]: for statuses in the range of a [LONG] the number is never 0 and
    lies below 2^32, also for a negative status. *)
Theorem probe_error_number_range (b : bool) (w : Trace) :
  (forall w' key, - 2 ^ 31 <= RegCreateKeyExW h w' key < 2 ^ 31) ->
  (forall w' name, - 2 ^ 31 <= fst (RegQueryValueExW h w' name) < 2 ^ 31) ->
  IsThereAnError (fst (fst (CheckIfPowershellIsInstalled h b w))) = true ->
  0 < GetErrorNumber (fst (fst (CheckIfPowershellIsInstalled h b w))) < 2 ^ 32.
Proof.
  intros Hcreate Hquery. unfold CheckIfPowershellIsInstalled. cbv zeta.
  match goal with
  | |- context [RegCreateKeyExW h w ?k] =>
      pose proof (Hcreate w k) as Hc;
      destruct (Z.eqb_spec (RegCreateKeyExW h w k) ERROR_SUCCESS) as [Hk|Hk]
  end; cbn [negb].
  - match goal with
    | |- context [RegQueryValueExW h ?w' ?n] =>
        pose proof (Hquery w' n) as Hq;
        destruct (RegQueryValueExW h w' n) as [getResult value]
    end.
    cbn [fst] in Hq.
    destruct (Z.eqb_spec getResult ERROR_SUCCESS) as [Hg|Hg]; cbn [negb fst snd].
    + discriminate.
    + intros _. cbn. unfold DWORD_of_LSTATUS, ERROR_SUCCESS in *.
      pose proof (Z.mod_pos_bound getResult (2 ^ 32) ltac:(lia)).
      assert (getResult mod 2 ^ 32 <> 0); [|lia].
      intros H0. apply Z.mod_divide in H0; [|lia].
      destruct H0 as [q Hq0]. nia.
  - intros _. cbn. unfold DWORD_of_LSTATUS, ERROR_SUCCESS in *.
    match goal with
    | |- context [?x mod 2 ^ 32] =>
        pose proof (Z.mod_pos_bound x (2 ^ 32) ltac:(lia));
        assert (x mod 2 ^ 32 <> 0); [|lia];
        intros H0; apply Z.mod_divide in H0; [|lia];
        destruct H0 as [q Hq0]; nia
    end.
Qed.

(** X19.  [RunScript] tests for the script file before anything else and
    launches at most once: its calls start with the existence test, none
    follows a negative answer, and a launch it makes is the PowerShell
    request of the script. *)
Theorem RunScript_tests_then_launches_once spec packageRoot dirStr cmdShow w :
  exists present rest,
    since w (snd (RunScript h spec packageRoot dirStr cmdShow w))
    = EvFileExists (script_full_path h spec packageRoot dirStr) present :: rest
    /\ (present = false -> rest = [])
    /\ (present = true ->
        exists si r,
          launches rest
          = [EvCreateProcessW (script_request h spec packageRoot dirStr)
               true EXTENDED_STARTUPINFO_PRESENT si r]).
Proof.
  rewrite RunScript_unfold. cbv zeta.
  destruct (exists_ h w _) eqn:Hex.
  - destruct (StartProcess_run h (script_request h spec packageRoot dirStr)
                cmdShow (venv_setting spec)
                (emit w (EvFileExists
                           (script_full_path h spec packageRoot dirStr) true)))
      as (attrs & si & r & waits & Hs & _ & Hla & _ & Hlw & _).
    rewrite Hs. unfold emit. rewrite <- app_assoc, since_app. cbn [app].
    eexists true, _. split; [reflexivity|]. split; [discriminate|].
    intros _. exists si, r. rewrite launches_app, Hla. cbn [app].
    unfold launches in *. cbn [filter is_launch]. now rewrite Hlw.
  - cbn [snd]. unfold emit. rewrite since_app.
    exists false, []. repeat split. discriminate.
Qed.

(** X20.  When the launch of a script is refused, the error names
    PowerShell: the script stage gives no application name, and the name read
    from its command line is the interpreter's. *)
Theorem RunScript_launch_failure_names_powershell spec packageRoot dirStr
    cmdShow w si err :
  size (script_command_line spec) <= max_size ->
  In (EvCreateProcessW (script_request h spec packageRoot dirStr)
        true EXTENDED_STARTUPINFO_PRESENT si (Some err))
     (since w (snd (RunScript h spec packageRoot dirStr cmdShow w))) ->
  fst (RunScript h spec packageRoot dirStr cmdShow w)
  = MkError "ERROR: Failed to create a process for Powershell.exe " err.
Proof.
  intros Hmax. rewrite RunScript_unfold. cbv zeta.
  destruct (exists_ h w _) eqn:Hex; cbv iota.
  - destruct (StartProcess_run h (script_request h spec packageRoot dirStr)
                cmdShow (venv_setting spec)
                (emit w (EvFileExists
                           (script_full_path h spec packageRoot dirStr) true)))
      as (attrs & si' & r & waits & Hs & _ & Hla & _ & Hlw & _ & _ & _ & Herr & _).
    rewrite Hs. unfold emit in *. rewrite <- app_assoc, since_app. cbn [app].
    intros [Hin|Hin]; [discriminate Hin|].
    apply in_app_or in Hin as [Hin|[Hin|Hin]].
    + apply (launches_nil_In _ _ Hla) in Hin. discriminate.
    + injection Hin as _ Hr. destruct (Herr err Hr) as [_ ->].
      cbn [ApplicationName CommandLine script_request].
      rewrite applicationNameForError_spec by assumption.
      reflexivity.
    + apply (launches_nil_In _ _ Hlw) in Hin. discriminate.
  - cbn [snd]. unfold emit. rewrite since_app.
    intros [Hin|[]]. discriminate Hin.
Qed.

End StagesAgain.

(** * The trace helpers *)

Section LogFacts.

Lemma length_resize s n : String.length (resize s n) = n.
Proof.
  revert s; induction n as [|n IH]; intros s; cbn; [reflexivity|].
  destruct s; cbn; now rewrite IH.
Qed.

Lemma length_overwrite buf src :
  String.length (overwrite buf src) = String.length buf.
Proof.
  revert src; induction buf as [|b buf IH]; intros src; cbn; [reflexivity|].
  destruct src; cbn; [reflexivity|now rewrite IH].
Qed.

(** A text that fits the buffer is read back whole. *)
Lemma resize_overwrite buf text rest :
  (String.length text <= String.length buf)%nat ->
  resize (overwrite buf (text ++ rest)) (String.length text) = text.
Proof.
  revert buf; induction text as [|c text IH]; intros buf Hlen.
  - reflexivity.
  - destruct buf as [|b buf]; cbn in Hlen; [lia|].
    cbn. rewrite IH by lia. reflexivity.
Qed.

(** X21.  [Log] hands the whole expansion to the debugger, whatever its
    length: a text longer than the first buffer of 256 characters is
    formatted a second time into a buffer of its own length and is not cut
    short. *)
Theorem Log_hands_over_whole_text text :
  size text <= INT_MAX ->
  Log (Some text) = Some text.
Proof.
  intros Hint. unfold Log, vsnprintf. cbv zeta.
  assert (Hsz : size (resize EmptyString 256) = 256) by reflexivity.
  destruct (Z.ltb_spec INT_MAX (size text)) as [Hbig|_]; [lia|].
  cbv beta iota zeta.
  pose proof (size_nonneg text) as H0.
  unfold size_t_of_int. rewrite (Z.mod_small (size text))
    by (unfold INT_MAX in *; lia).
  set (first := overwrite (resize EmptyString 256) _).
  assert (Hfirst : size first = 256)
    by (unfold first, size; rewrite length_overwrite; reflexivity).
  rewrite Hfirst.
  destruct (Z.ltb_spec 256 (size text)) as [Hlong|Hshort].
  - destruct (Z.ltb_spec string_max_size (size text)) as [Hx|_];
      [unfold string_max_size, INT_MAX in *; lia|].
    assert (Hgrown : size (resize first (Z.to_nat (size text))) = size text)
      by (unfold size; rewrite length_resize; lia).
    rewrite Hgrown.
    replace (Z.min (size text) (size text + 1 - 1)) with (size text) by lia.
    destruct (Z.ltb_spec string_max_size (size text)) as [Hx|_];
      [unfold string_max_size, INT_MAX in *; lia|].
    unfold size. rewrite Nat2Z.id, substring_whole.
    f_equal. apply resize_overwrite. rewrite length_resize. lia.
  - destruct (Z.ltb_spec string_max_size (size text)) as [Hx|_];
      [unfold string_max_size, INT_MAX in *; lia|].
    unfold first.
    replace (Z.min (size text) (size (resize EmptyString 256) + 1 - 1))
      with (size text) by lia.
    unfold size. rewrite Nat2Z.id, substring_whole.
    f_equal. apply resize_overwrite. rewrite length_resize.
    unfold size in Hshort. lia.
Qed.

End LogFacts.

Section LogFailure.

(** X22.  When [vsnprintf] reports a failure, because the expansion fails or
    is longer than an [int] can tell, [Log] does not return: the negative
    result is stored in a [size_t], the string is asked to grow beyond its
    largest size, and the exception leaves a [noexcept] function. *)
Theorem Log_failure_ends_the_process expansion :
  match expansion with
  | None => True
  | Some text => INT_MAX < size text
  end ->
  Log expansion = None.
Proof.
  intros H. unfold Log, vsnprintf. cbv zeta.
  destruct expansion as [text|].
  - apply Z.ltb_lt in H. rewrite H. reflexivity.
  - reflexivity.
Qed.

End LogFailure.

(** * The application stage in full *)

Section ApplicationStage.

Variable h : Host.


Lemma StartProcess_failed execInfo cmdShow w e si err waits :
  StartProcess h execInfo cmdShow false w
  = (e, (w ++ EvCreateProcessW execInfo true EXTENDED_STARTUPINFO_PRESENT si
                (Some err) :: waits)%list) ->
  e = MkError ("ERROR: Failed to create a process for "
               ++ match ApplicationName execInfo with
                  | Some name => name
                  | None => applicationNameForError (CommandLine execInfo)
                  end ++ " ") err.
Proof.
  intros E.
  destruct (StartProcess_run h execInfo cmdShow false w)
    as (attrs & si' & r & waits' & Hs & _ & _ & _ & _ & Hoff & _ & _ & Herr & _).
  rewrite E in Hs, Herr. cbn [fst snd] in Hs, Herr.
  rewrite (Hoff eq_refl) in Hs. cbn [app] in Hs.
  apply app_inv_head in Hs. injection Hs as _ Hr _.
  symmetry in Hr. exact (proj2 (Herr err Hr)).
Qed.


(** X24.  When the direct launch of the application is refused, the stage's
    error names the full path of the executable in its message, carries the
    operating system's code and is tagged with the configured name. *)
Theorem application_launch_failure args cmdShow appConfig e calls execInfo si err :
  PSFQueryCurrentAppLaunchConfig h = Some appConfig ->
  In (StApplication, e, calls)
     (stage_groups (snd (launcher_main h args cmdShow))) ->
  In (EvCreateProcessW execInfo true EXTENDED_STARTUPINFO_PRESENT si (Some err))
     calls ->
  e = MkErrorFor
        ("ERROR: Failed to create a process for "
         ++ path_append h (PSFQueryPackageRootPath h) (executable appConfig)
         ++ " ")
        err (executable appConfig).
Proof.
  intros Hcfg.
  destruct (launcher_main h args cmdShow) as [code tr] eqn:Hrun.
  revert Hrun. unfold launcher_main. rewrite Hcfg. run_simpl.
  repeat (run_step; run_simpl; try congruence).
  all: name_run; cbn [fst snd]; read_history.
  all: cbn [In]; intros Hin Hev; pick_stage.
  all: try (destruct Hev as [Hev|[Hev|[]]]; discriminate Hev).
  all: destruct Hev as [Hev|Hev];
    [|match goal with
      | Hw : launches ?l = [], Hev : In _ ?l |- _ =>
          apply (launches_nil_In _ _ Hw) in Hev; discriminate Hev
      end].
  all: injection Hev as _ _ Hr; subst.
  all: match goal with
       | E : StartProcess _ _ _ false _ = _ |- _ =>
           apply StartProcess_failed in E; rewrite E
       end.
  all: reflexivity.
Qed.

End ApplicationStage.

(** * A line that cannot be written *)

Section LinesNotWritten.

Variable h : Host.

Lemma monitor_line_needs_name monitor :
  narrow h (monitor_executable monitor) = None -> monitor_line h monitor = None.
Proof.
  intros Hn. unfold monitor_line. cbn [vformat]. rewrite Hn. reflexivity.
Qed.

Lemma shell_line_needs_name packageRoot exeName exeArgString :
  narrow h (path_append h packageRoot exeName) = None ->
  shell_line h packageRoot exeName exeArgString = None.
Proof.
  intros Hn. unfold shell_line. cbn [vformat]. rewrite Hn. reflexivity.
Qed.

(** X26.  When the name of the monitor's executable has no multibyte form,
    the process ends in [Log] at the line that announces the monitor:
    [launcher_main] does not return, and after [CoInitializeEx] nothing
    happens any more, so the monitor, the application and the ending script
    are not started and nothing is reported. *)
Theorem monitor_line_failure_ends_the_process args cmdShow appConfig monitor w :
  PSFQueryCurrentAppLaunchConfig h = Some appConfig ->
  PSFQueryAppMonitorConfig h = Some monitor ->
  prologue h appConfig cmdShow = Some w ->
  narrow h (monitor_executable monitor) = None ->
  launcher_main h args cmdShow = (None, (w ++ [EvCoInitializeEx])%list).
Proof.
  intros Hcfg Hmon Hpro Hn. apply monitor_line_needs_name in Hn. revert Hpro.
  unfold prologue, launcher_main, dirStr_of. rewrite Hcfg, Hmon. run_simpl.
  repeat (run_step; run_simpl; try congruence).
  all: intros Hreach; try discriminate Hreach; apply Some_eq in Hreach;
    rewrite ?Hreach in *.
  all: destruct Hline as [_ ->]; rewrite app_nil_r; reflexivity.
Qed.

(** X27.  When no monitor is configured and the path of an application that
    is no [.exe] has no multibyte form, the process ends in [Log] at the
    line that announces the shell activation: [launcher_main] does not
    return, and neither the application nor the ending script is started. *)
Theorem shell_line_failure_ends_the_process args cmdShow appConfig w :
  PSFQueryCurrentAppLaunchConfig h = Some appConfig ->
  PSFQueryAppMonitorConfig h = None ->
  check_suffix_if (executable appConfig) ".exe" = false ->
  prologue h appConfig cmdShow = Some w ->
  narrow h (path_append h (PSFQueryPackageRootPath h) (executable appConfig))
  = None ->
  launcher_main h args cmdShow = (None, w).
Proof.
  intros Hcfg Hmon Hsfx Hpro Hn.
  pose proof (shell_line_needs_name (PSFQueryPackageRootPath h)
                (executable appConfig) (configured_arguments appConfig) Hn) as Hs.
  revert Hpro.
  unfold prologue, launcher_main, dirStr_of, configured_arguments in *.
  rewrite Hcfg, Hmon, Hsfx. run_simpl.
  repeat (run_step; run_simpl; try congruence).
  all: intros Hreach; try discriminate Hreach; apply Some_eq in Hreach;
    rewrite ?Hreach in *.
  all: reflexivity.
Qed.

End LinesNotWritten.

(** * The run on which nothing fails *)

Section NothingFails.

Variable h : Host.

Hypothesis key_opens_always :
  forall w key, RegCreateKeyExW h w key = ERROR_SUCCESS.
Hypothesis marker_is_one :
  forall w name, RegQueryValueExW h w name = (ERROR_SUCCESS, 1).
Hypothesis files_exist : forall w p, exists_ h w p = true.
Hypothesis processes_start :
  forall w execInfo si, CreateProcessW h w execInfo si = None.
Hypothesis waits_end :
  forall w, fst (WaitForSingleObject h w) = WAIT_OBJECT_0.
Hypothesis activations_start : forall w info, ShellExecuteEx h w info = None.

Lemma StartProcess_succeeds execInfo cmdShow flag w :
  fst (StartProcess h execInfo cmdShow flag w) = NoError.
Proof.
  unfold StartProcess. cbv zeta.
  destruct flag; rewrite processes_start;
    match goal with
    | |- context [WaitForSingleObject h ?w0] =>
        pose proof (waits_end w0) as Hw;
        destruct (WaitForSingleObject h w0) as [waitResult lastError]
    end;
    cbn [fst] in Hw; subst waitResult; reflexivity.
Qed.

Lemma RunScript_succeeds spec packageRoot dirStr cmdShow w :
  isThereAnError (fst (RunScript h spec packageRoot dirStr cmdShow w)) = false.
Proof.
  rewrite RunScript_unfold. cbv zeta. rewrite files_exist.
  now rewrite StartProcess_succeeds.
Qed.

Lemma GetAndLaunchMonitor_succeeds monitor packageRoot cmdShow dirStr w e :
  fst (GetAndLaunchMonitor h monitor packageRoot cmdShow dirStr w) = Some e ->
  isThereAnError e = false.
Proof.
  unfold GetAndLaunchMonitor, LaunchMonitorInBackground. cbv zeta.
  rewrite Log_line_written.
  destruct (Log _) as [text|]; [|discriminate].
  destruct (match asadmin monitor with Some b => b | None => false end).
  - rewrite activations_start.
    destruct (match wait monitor with Some b => b | None => false end);
      intros [= <-]; reflexivity.
  - match goal with
    | |- context [StartProcess h ?ei cmdShow false ?w0] =>
        pose proof (StartProcess_succeeds ei cmdShow false w0) as Hs;
        destruct (StartProcess h ei cmdShow false w0) as [e' w']
    end.
    cbn [fst] in *. subst e'. intros [= <-]. reflexivity.
Qed.

Lemma StartWithShellExecute_succeeds packageRoot exeName exeArgString dirStr
    cmdShow w e :
  fst (StartWithShellExecute h packageRoot exeName exeArgString dirStr cmdShow w)
  = Some e ->
  isThereAnError e = false.
Proof.
  unfold StartWithShellExecute. cbv zeta. rewrite Log_line_written.
  destruct (Log _) as [text|]; [|discriminate].
  rewrite activations_start. intros [= <-]. reflexivity.
Qed.

Lemma CheckIfPowershellIsInstalled_succeeds b w :
  fst (CheckIfPowershellIsInstalled h b w) = (NoError, true).
Proof.
  unfold CheckIfPowershellIsInstalled. cbv zeta.
  rewrite key_opens_always, marker_is_one. reflexivity.
Qed.

(** X25.  On a host where PowerShell is installed, every file exists, every
    launch and wait succeeds and the lines for the debugger can be written,
    the launcher exits with 0 and reports nothing, and the stages that
    returned are exactly the configured ones in pipeline order: the probe,
    the starting script if there is one, the monitor if there is one, the
    application, the ending script if there is one. *)
Theorem nothing_fails_exit_zero args cmdShow appConfig :
  PSFQueryCurrentAppLaunchConfig h = Some appConfig ->
  lines_written h appConfig ->
  fst (launcher_main h args cmdShow) = Some 0
  /\ reports (snd (launcher_main h args cmdShow)) = []
  /\ stages (snd (launcher_main h args cmdShow))
     = ([StProbe]
        ++ match PSFQueryStartScriptInfo h with Some _ => [StStartScript] | None => [] end
        ++ match PSFQueryAppMonitorConfig h with Some _ => [StMonitor] | None => [] end
        ++ [StApplication]
        ++ match PSFQueryEndScriptInfo h with Some _ => [StEndScript] | None => [] end)%list.
Proof.
  intros Hcfg [Hmon Hshell]. unfold stages.
  destruct (launcher_main h args cmdShow) as [code tr] eqn:Hrun.
  revert Hrun. unfold launcher_main, configured_arguments in *.
  rewrite Hcfg. run_simpl.
  repeat (run_step; run_simpl; try congruence).
  all: try (exfalso; eapply Hmon; [reflexivity|apply Hline]).
  all: try (exfalso; apply Hshell; [reflexivity|assumption]).
  all: name_run; cbn [fst snd]; read_history;
    cbn [reports flat_map app map fst].
  all: repeat match goal with
         | E : CheckIfPowershellIsInstalled h ?b ?w = _ |- _ =>
             let H := fresh "Hp" in
             pose proof (CheckIfPowershellIsInstalled_succeeds b w) as H;
             rewrite E in H; cbn [fst] in H; clear E;
             injection H; clear H; intros; subst
         | E : RunScript h ?a ?b ?c ?d0 ?w = _ |- _ =>
             let H := fresh "Hr" in
             pose proof (RunScript_succeeds a b c d0 w) as H;
             rewrite E in H; cbn [fst] in H; clear E
         | E : GetAndLaunchMonitor h ?a ?b ?c ?d0 ?w = (Some ?e, _) |- _ =>
             let H := fresh "Hm" in
             pose proof (GetAndLaunchMonitor_succeeds a b c d0 w e) as H;
             rewrite E in H; cbn [fst] in H; specialize (H eq_refl); clear E
         | E : StartProcess h ?a ?b ?c ?w = _ |- _ =>
             let H := fresh "Hs" in
             pose proof (StartProcess_succeeds a b c w) as H;
             rewrite E in H; cbn [fst] in H; subst; clear E
         | E : StartWithShellExecute h ?a ?b ?c ?d0 ?e ?w = (Some ?e', _) |- _ =>
             let H := fresh "Ha" in
             pose proof (StartWithShellExecute_succeeds a b c d0 e w e') as H;
             rewrite E in H; cbn [fst] in H; specialize (H eq_refl); clear E
         end.
  all: cbn [isThereAnError NoError] in *; try congruence; try discriminate.
  all: repeat split.
Qed.

End NothingFails.

(** * The properties at concrete hosts *)

(** An entry of a concrete history or list of stages is found by looking
    through it. *)
Ltac find_entry :=
  vm_compute; repeat first [left; reflexivity | right].

Lemma launcher_main_nonzero_exit_is_reported_witness :
  exists text, reports (snd (launcher_main Demo.script_missing "extra" 1)) = [text].
Proof.
  apply (launcher_main_nonzero_exit_is_reported Demo.script_missing "extra" 1
           ERROR_FILE_NOT_FOUND).
  - reflexivity.
  - discriminate.
Defined.

(** The registry refuses the key with the status -5: the number of the
    error is the [DWORD] 4294967291 and the exit code is the [int] -5. *)
Lemma probe_failure_stops_the_run_witness :
  stages (snd (launcher_main DemoMore.key_refused "extra" 1)) = [StProbe]
  /\ launches (snd (launcher_main DemoMore.key_refused "extra" 1)) = []
  /\ reports (snd (launcher_main DemoMore.key_refused "extra" 1))
     = ["Error with getting the key to see if PowerShell is installed. "]
  /\ fst (launcher_main DemoMore.key_refused "extra" 1) = Some (-5).
Proof.
  apply (probe_failure_stops_the_run DemoMore.key_refused "extra" 1
           (MkError "Error with getting the key to see if PowerShell is installed. "
              4294967291)
           (launcher_start ++ [EvRegCreateKeyExW install_key (-5)])%list).
  - find_entry.
  - reflexivity.
Defined.

Lemma start_script_failure_stops_the_run_witness :
  stages (snd (launcher_main Demo.script_missing "extra" 1))
  = [StProbe; StStartScript]
  /\ reports (snd (launcher_main Demo.script_missing "extra" 1))
     = ["The PowerShell file /pkg/go.ps1 can't be found"]
  /\ fst (launcher_main Demo.script_missing "extra" 1) = Some ERROR_FILE_NOT_FOUND.
Proof.
  apply (start_script_failure_stops_the_run Demo.script_missing "extra" 1
           (MkError "The PowerShell file /pkg/go.ps1 can't be found"
              ERROR_FILE_NOT_FOUND)
           [EvFileExists "/pkg/go.ps1" false]).
  - find_entry.
  - reflexivity.
Defined.

Lemma no_end_script_no_report_witness :
  reports (snd (launcher_main DemoMore.monitor_fails "extra" 1)) = []
  /\ (forall code,
        fst (launcher_main DemoMore.monitor_fails "extra" 1) = Some code ->
        code = 0)
  /\ (StMonitor = StApplication
      \/ IsThereAnError
           (MkErrorFor "ERROR: Failed to create a process for m.exe " 5 "m.exe")
         = true ->
      fst (launcher_main DemoMore.monitor_fails "extra" 1) = Some 0).
Proof.
  apply (no_end_script_no_report DemoMore.monitor_fails "extra" 1 StMonitor
           (MkErrorFor "ERROR: Failed to create a process for m.exe " 5 "m.exe")
           [EvCoInitializeEx;
            EvOutputDebugStringA (String tab "Creating the monitor: m.exe");
            EvCreateProcessW
              (monitor_request DemoMore.monitor_fails
                 {| monitor_executable := "m.exe"; monitor_arguments := "-x";
                    asadmin := Some false; wait := None |}
                 "/pkg" (Some EmptyString))
              true EXTENDED_STARTUPINFO_PRESENT DemoText.plain_startup (Some 5)]).
  - reflexivity.
  - find_entry.
  - left. reflexivity.
Defined.

Lemma end_script_error_is_reported_witness :
  reports (snd (launcher_main DemoMore.end_fails "extra" 1))
  = ["ERROR: Failed to create a process for Powershell.exe "]
  /\ fst (launcher_main DemoMore.end_fails "extra" 1) = Some 5.
Proof.
  apply (end_script_error_is_reported DemoMore.end_fails "extra" 1
           (MkError "ERROR: Failed to create a process for Powershell.exe " 5)
           [EvFileExists "/pkg/end.ps1" true;
            EvCreateProcessW
              (script_request DemoMore.end_fails Demo.end_script "/pkg"
                 (Some EmptyString))
              true EXTENDED_STARTUPINFO_PRESENT DemoText.plain_startup (Some 5)]).
  - find_entry.
  - reflexivity.
  - intros s e c Hin Hs. vm_compute in Hin.
    destruct Hin as [Hin|[Hin|[Hin|[]]]]; injection Hin as <- <- <-;
      try reflexivity; destruct Hs as [Hs|Hs]; discriminate Hs.
Defined.

Lemma shell_activation_drops_launcher_arguments_witness :
  launcher_main (Demo.healthy Demo.doc_pdf None None) "one" 1
  = launcher_main (Demo.healthy Demo.doc_pdf None None) "two" 1.
Proof.
  apply (shell_activation_drops_launcher_arguments
           (Demo.healthy Demo.doc_pdf None None) "one" "two" 1 Demo.doc_pdf);
    reflexivity.
Defined.

Lemma every_direct_launch_carries_show_mode_witness :
  true = true
  /\ EXTENDED_STARTUPINFO_PRESENT = EXTENDED_STARTUPINFO_PRESENT
  /\ dwFlags DemoText.plain_startup = STARTF_USESHOWWINDOW
  /\ wShowWindow DemoText.plain_startup = 65537 mod 2 ^ 16.
Proof.
  apply (every_direct_launch_carries_show_mode DemoMore.all_well "extra" 65537
           Demo.app_exe
           (application_request DemoMore.all_well Demo.app_exe "extra")
           true EXTENDED_STARTUPINFO_PRESENT DemoText.plain_startup None).
  - reflexivity.
  - find_entry.
Defined.

Lemma every_direct_launch_in_working_directory_witness :
  CurrentDirectory (application_request DemoMore.all_well Demo.app_exe "extra")
  = Some "/pkg/".
Proof.
  apply (every_direct_launch_in_working_directory DemoMore.all_well "extra" 1
           Demo.app_exe
           (application_request DemoMore.all_well Demo.app_exe "extra")
           true EXTENDED_STARTUPINFO_PRESENT DemoText.plain_startup None).
  - reflexivity.
  - find_entry.
Defined.

Lemma launch_without_name_is_powershell_witness :
  exists rest,
    CommandLine (script_request DemoMore.all_well Demo.go_script "/pkg"
                   (Some EmptyString))
    = "Powershell.exe -file " ++ rest.
Proof.
  apply (launch_without_name_is_powershell DemoMore.all_well "extra" 1
           Demo.app_exe
           (script_request DemoMore.all_well Demo.go_script "/pkg"
              (Some EmptyString))
           true EXTENDED_STARTUPINFO_PRESENT DemoText.plain_startup None).
  - reflexivity.
  - find_entry.
  - reflexivity.
Defined.

Lemma monitor_not_elevated_by_default_witness :
  (exists si r rest,
      since [] (snd (GetAndLaunchMonitor DemoMore.all_well
                       {| monitor_executable := "m.exe";
                          monitor_arguments := "-x";
                          asadmin := None; wait := None |}
                       "/pkg" 1 (Some EmptyString) []))
      = EvOutputDebugStringA (String tab "Creating the monitor: m.exe") :: rest
      /\ launches rest
         = [EvCreateProcessW
              (monitor_request DemoMore.all_well
                 {| monitor_executable := "m.exe"; monitor_arguments := "-x";
                    asadmin := None; wait := None |}
                 "/pkg" (Some EmptyString))
              true EXTENDED_STARTUPINFO_PRESENT si r]
      /\ lpAttributeList si = None)
  /\ exists e,
      fst (GetAndLaunchMonitor DemoMore.all_well
             {| monitor_executable := "m.exe"; monitor_arguments := "-x";
                asadmin := None; wait := None |}
             "/pkg" 1 (Some EmptyString) []) = Some e
      /\ exeName e = Some "m.exe".
Proof.
  apply (monitor_not_elevated_by_default DemoMore.all_well
           {| monitor_executable := "m.exe"; monitor_arguments := "-x";
              asadmin := None; wait := None |}
           "/pkg" 1 (Some EmptyString) []).
  - discriminate.
  - reflexivity.
Defined.

Lemma monitor_elevated_activation_witness :
  exists info r,
    launches
      (since [] (snd (GetAndLaunchMonitor (Demo.elevation_declined None)
                        Demo.elevated_monitor "/pkg" 7 (Some "work") [])))
    = [EvShellExecuteEx info r]
    /\ lpVerb info = Some "runas"
    /\ lpFile info = String dquote ("/pkg/m.exe" ++ String dquote EmptyString)
    /\ lpParameters info = "-x"
    /\ lpDirectory info = None
    /\ nShow info = 1
    /\ Z.land (fMask info) SEE_MASK_NOCLOSEPROCESS = SEE_MASK_NOCLOSEPROCESS
    /\ (In (EvSleep 5000)
          (since [] (snd (GetAndLaunchMonitor (Demo.elevation_declined None)
                            Demo.elevated_monitor "/pkg" 7 (Some "work") [])))
        <-> r = None /\ wait Demo.elevated_monitor <> Some true).
Proof.
  apply (monitor_elevated_activation (Demo.elevation_declined None)
           Demo.elevated_monitor "/pkg" 7 (Some "work") []
           (String tab "Creating the monitor: m.exe")).
  - reflexivity.
  - reflexivity.
Defined.

Lemma check_suffix_if_last_characters_witness :
  check_suffix_if ("C:\apps\Tool" ++ ".EXE") ".exe" = iwstring_eqb ".EXE" ".exe".
Proof.
  apply (check_suffix_if_last_characters "C:\apps\Tool" ".EXE" ".exe").
  - reflexivity.
  - vm_compute. discriminate.
Defined.

Lemma applicationNameForError_has_no_delimiter_witness :
  (String.length (applicationNameForError Demo.quoted_line)
   <= String.length Demo.quoted_line)%nat
  /\ find (applicationNameForError Demo.quoted_line)
       (if Ascii.eqb (at_ Demo.quoted_line 0) dquote then dquote else space) 0
     = npos.
Proof.
  apply (applicationNameForError_has_no_delimiter Demo.quoted_line).
  vm_compute. discriminate.
Defined.

Lemma applicationNameForError_unmatched_quote_witness :
  applicationNameForError (String dquote "a b x y") = "a b x y".
Proof.
  apply (applicationNameForError_unmatched_quote "a b x y").
  - vm_compute. discriminate.
  - reflexivity.
Defined.

Lemma probe_error_number_range_witness :
  0 < GetErrorNumber
        (fst (fst (CheckIfPowershellIsInstalled DemoMore.key_refused false [])))
    < 2 ^ 32.
Proof.
  apply (probe_error_number_range DemoMore.key_refused false []).
  - intros w' key. vm_compute. split; [discriminate|reflexivity].
  - intros w' name. vm_compute. split; [discriminate|reflexivity].
  - reflexivity.
Defined.

Lemma RunScript_launch_failure_names_powershell_witness :
  fst (RunScript DemoMore.end_fails Demo.end_script "/pkg" (Some EmptyString) 1 [])
  = MkError "ERROR: Failed to create a process for Powershell.exe " 5.
Proof.
  apply (RunScript_launch_failure_names_powershell DemoMore.end_fails
           Demo.end_script "/pkg" (Some EmptyString) 1 []
           DemoText.plain_startup 5).
  - vm_compute. discriminate.
  - find_entry.
Defined.

Lemma Log_hands_over_whole_text_witness :
  Log (Some DemoText.long_text) = Some DemoText.long_text.
Proof.
  apply (Log_hands_over_whole_text DemoText.long_text).
  vm_compute. discriminate.
Defined.

Lemma Log_failure_ends_the_process_witness : Log None = None.
Proof. apply (Log_failure_ends_the_process None). exact I. Defined.


Lemma application_launch_failure_witness :
  AddExeName (MkError "ERROR: Failed to create a process for /pkg/app.exe " 5)
    "app.exe"
  = MkErrorFor
      ("ERROR: Failed to create a process for "
       ++ path_append Demo.app_and_end_fail
            (PSFQueryPackageRootPath Demo.app_and_end_fail)
            (executable Demo.app_exe)
       ++ " ")
      5 (executable Demo.app_exe).
Proof.
  apply (application_launch_failure Demo.app_and_end_fail "extra" 1 Demo.app_exe
           _ [EvCreateProcessW
                (application_request Demo.app_and_end_fail Demo.app_exe "extra")
                true EXTENDED_STARTUPINFO_PRESENT DemoText.plain_startup (Some 5)]
           (application_request Demo.app_and_end_fail Demo.app_exe "extra")
           DemoText.plain_startup 5).
  - reflexivity.
  - find_entry.
  - left. reflexivity.
Defined.

Lemma nothing_fails_exit_zero_witness :
  fst (launcher_main DemoMore.all_well "extra" 1) = Some 0
  /\ reports (snd (launcher_main DemoMore.all_well "extra" 1)) = []
  /\ stages (snd (launcher_main DemoMore.all_well "extra" 1))
     = [StProbe; StStartScript; StMonitor; StApplication; StEndScript].
Proof.
  apply (nothing_fails_exit_zero DemoMore.all_well
           (fun _ _ => eq_refl) (fun _ _ => eq_refl) (fun _ _ => eq_refl)
           (fun _ _ _ => eq_refl) (fun _ => eq_refl) (fun _ _ => eq_refl)
           "extra" 1 Demo.app_exe).
  - reflexivity.
  - split.
    + intros monitor Hm. injection Hm as <-. vm_compute. discriminate.
    + intros _. vm_compute. discriminate.
Defined.

Lemma monitor_line_failure_ends_the_process_witness :
  launcher_main DemoMore.monitor_unnamed "extra" 1
  = (None,
     ((launcher_start
         ++ [EvRegCreateKeyExW install_key 0; EvRegQueryValueExW "Install" 0 1;
            EvStage StProbe NoError;
            EvFileExists "/pkg/go.ps1" true;
            EvCreateProcessW
              (script_request DemoMore.monitor_unnamed Demo.go_script "/pkg"
                 (Some EmptyString))
              true EXTENDED_STARTUPINFO_PRESENT DemoText.plain_startup None;
            EvWaitForSingleObject INFINITE WAIT_OBJECT_0;
            EvStage StStartScript NoError])
        ++ [EvCoInitializeEx])%list).
Proof.
  apply (monitor_line_failure_ends_the_process DemoMore.monitor_unnamed "extra" 1
           Demo.app_exe
           {| monitor_executable := "m.exe"; monitor_arguments := "-x";
              asadmin := None; wait := None |}).
  - reflexivity.
  - reflexivity.
  - reflexivity.
  - reflexivity.
Defined.

Lemma shell_line_failure_ends_the_process_witness :
  launcher_main DemoMore.document_unnamed "extra" 1
  = (None,
     (launcher_start
        ++ [EvRegCreateKeyExW install_key 0; EvRegQueryValueExW "Install" 0 1;
            EvStage StProbe NoError])%list).
Proof.
  apply (shell_line_failure_ends_the_process DemoMore.document_unnamed "extra" 1
           Demo.doc_pdf).
  - reflexivity.
  - reflexivity.
  - reflexivity.
  - reflexivity.
  - reflexivity.
Defined.
